(** * udping: a shallow embedding of ping.go and main.go

    The probe engine ([ValidateParameters], [pingUdp], [Run]) and the part of
    [main] that builds the [run] value are embedded as functions in a small
    state-and-panic monad.  The operating system (resolver, sockets, clock)
    is an explicit oracle, [network]; everything the program does to the
    outside is recorded, in order, in a trace of [event]s. *)

From Stdlib Require Import ZArith String Ascii List Bool Lia DecimalString
  DecimalPos.
From stdpp Require Import base list strings.

Local Open Scope Z_scope.

(** ** Text: decimal rendering, [strings.Contains], [fmt.Sprintf] *)

Definition newline : string := String (ascii_of_nat 10) EmptyString.

(** Base-10 rendering of a Go [int], as the verb [%d] prints it. *)
Definition itoa (z : Z) : string := NilZero.string_of_int (Z.to_int z).

(** [strings.Contains s substr]. *)
Fixpoint Contains (s substr : string) : bool :=
  String.prefix substr s
  || match s with
     | EmptyString => false
     | String _ s' => Contains s' substr
     end.

(** The operands the program hands to the [fmt] functions. *)
Inductive operand : Type :=
| OpStr (s : string)
| OpInt (n : Z).

Definition operand_type (o : operand) : string :=
  match o with OpStr _ => "string" | OpInt _ => "int" end.

Definition operand_value (o : operand) : string :=
  match o with OpStr s => s | OpInt n => itoa n end.

(** One verb applied to the next operand.  The program only uses [%s], [%d]
    and [%v]; a verb that does not fit its operand, or has none, renders the
    way [fmt] reports it. *)
Definition render_verb (v : ascii) (o : option operand) : string :=
  let bad o :=
    "%!" +:+ String v ("(" +:+ operand_type o +:+ "=" +:+ operand_value o +:+ ")") in
  match o with
  | None => "%!" +:+ String v "(MISSING)"
  | Some o =>
      if Ascii.eqb v "v" then operand_value o
      else if Ascii.eqb v "s" then
        match o with OpStr s => s | OpInt _ => bad o end
      else if Ascii.eqb v "d" then
        match o with OpInt n => itoa n | OpStr _ => bad o end
      else bad o
  end.

Fixpoint render_extra (a : list operand) : string :=
  match a with
  | [] => ""
  | [o] => operand_type o +:+ "=" +:+ operand_value o
  | o :: a' => operand_type o +:+ "=" +:+ operand_value o +:+ ", " +:+ render_extra a'
  end.

(** [fmt.Sprintf format a...] for formats without flags or widths. *)
Fixpoint Sprintf (format : string) (a : list operand) : string :=
  match format with
  | EmptyString =>
      match a with
      | [] => ""
      | _ => "%!(EXTRA " +:+ render_extra a +:+ ")"
      end
  | String c rest =>
      if Ascii.eqb c "%" then
        match rest with
        | EmptyString => "%!(NOVERB)"
        | String v rest' =>
            if Ascii.eqb v "%" then String "%" (Sprintf rest' a)
            else render_verb v (head a) +:+ Sprintf rest' (tail a)
        end
      else String c (Sprintf rest a)
  end.

(** ** Errors *)

Definition E_Timeout : string := "timeout".
Definition E_ConnRefused : string := "connection refused (no response)".

(** An error value that comes out of the [net] package: a [*net.OpError],
    with what its [Timeout()] method answers, or a value of another type
    ([*net.DNSError], [io.EOF], ...).  [text] is what [Error()] returns. *)
Inductive net_error : Type :=
| OpError (timeout : bool) (text : string)
| OtherError (text : string).

(** A Go [error] value: the result of a [fmt.Errorf] call of this program
    (kept as the call that made it) or an error of the [net] package. *)
Inductive error : Type :=
| Errorf (format : string) (a : list operand)
| NetError (e : net_error).

(** The method [Error()]. *)
Definition Error_text (e : error) : string :=
  match e with
  | Errorf format a => Sprintf format a
  | NetError (OpError _ text) => text
  | NetError (OtherError text) => text
  end.

(** ** The data model of ping.go *)

Record params : Type := mk_params {
  Destination : string;
  DestinationPort : Z;
  Protocol : string;
  Count : Z;
  Timeout : Z;
  ipDest : string
}.

(** [res_DestinationPort] holds the integer that [float64(...)] converts and
    [RTT] the elapsed [time.Duration], in nanoseconds, that [Seconds()]
    converts. *)
Record result : Type := mk_result {
  Success : bool;
  Error : string;
  res_Destination : string;
  res_DestinationPort : Z;
  res_Protocol : string;
  RTT : Z
}.

Record run : Type := mk_run {
  Parameters : params;
  Results : list result
}.

(** The zero value of [result], which [make([]result, n)] fills a slice with. *)
Definition zero_result : result :=
  {| Success := false; Error := ""; res_Destination := "";
     res_DestinationPort := 0; res_Protocol := ""; RTT := 0 |}.

Definition set_ipDest (v : string) (p : params) : params :=
  {| Destination := Destination p; DestinationPort := DestinationPort p;
     Protocol := Protocol p; Count := Count p; Timeout := Timeout p;
     ipDest := v |}.

Definition set_Timeout (v : Z) (p : params) : params :=
  {| Destination := Destination p; DestinationPort := DestinationPort p;
     Protocol := Protocol p; Count := Count p; Timeout := v;
     ipDest := ipDest p |}.

Definition set_Count (v : Z) (p : params) : params :=
  {| Destination := Destination p; DestinationPort := DestinationPort p;
     Protocol := Protocol p; Count := v; Timeout := Timeout p;
     ipDest := ipDest p |}.

Definition set_Success (v : bool) (x : result) : result :=
  {| Success := v; Error := Error x; res_Destination := res_Destination x;
     res_DestinationPort := res_DestinationPort x;
     res_Protocol := res_Protocol x; RTT := RTT x |}.

Definition set_Error (v : string) (x : result) : result :=
  {| Success := Success x; Error := v; res_Destination := res_Destination x;
     res_DestinationPort := res_DestinationPort x;
     res_Protocol := res_Protocol x; RTT := RTT x |}.

Definition set_RTT (v : Z) (x : result) : result :=
  {| Success := Success x; Error := Error x;
     res_Destination := res_Destination x;
     res_DestinationPort := res_DestinationPort x;
     res_Protocol := res_Protocol x; RTT := v |}.

Definition set_res_Destination (v : string) (x : result) : result :=
  {| Success := Success x; Error := Error x; res_Destination := v;
     res_DestinationPort := res_DestinationPort x;
     res_Protocol := res_Protocol x; RTT := RTT x |}.

Definition set_res_DestinationPort (v : Z) (x : result) : result :=
  {| Success := Success x; Error := Error x;
     res_Destination := res_Destination x; res_DestinationPort := v;
     res_Protocol := res_Protocol x; RTT := RTT x |}.

Definition set_res_Protocol (v : string) (x : result) : result :=
  {| Success := Success x; Error := Error x;
     res_Destination := res_Destination x;
     res_DestinationPort := res_DestinationPort x;
     res_Protocol := v; RTT := RTT x |}.

(** ** The outside world *)

(** What the operating system answers.  [Dial k addr] is the answer to the
    [k]-th call of [net.Dial("udp", addr)] ([None]: a connection), [Read k
    addr] what reading from that connection gives (a byte count or an error),
    [Now k] the [k]-th clock reading in nanoseconds.  [LookupHost] is what
    the resolver answers at the one lookup a run makes; a lookup made at
    another time is asked of another [network]. *)
Record network : Type := mk_network {
  LookupHost : string -> list string + net_error;
  ParseIP : string -> bool;
  Dial : nat -> string -> option net_error;
  Read : nat -> string -> nat + net_error;
  Now : nat -> Z
}.

Inductive event : Type :=
| EvLookupHost (host : string)
| EvDial (net address : string)
| EvWrite (payload : string)
| EvSetReadDeadline (now d : Z)
| EvRead (buffer : nat)
| EvClose
| EvPrintf (text : string)
| EvLog (text : string).

Record world : Type := mk_world {
  dials : nat;
  ticks : nat;
  trace : list event
}.

Definition world0 : world := {| dials := 0; ticks := 0; trace := [] |}.

(** ** A state-and-panic monad *)

Inductive panic : Type :=
| IndexOutOfRange (i len : Z)
| TypeAssertion (e : error)
| MakeSliceLen (n : Z)
| PanicError (e : error).

Inductive outcome (A : Type) : Type :=
| Ret (a : A)
| Panic (p : panic)
| Starved.
Arguments Ret {A} a.
Arguments Panic {A} p.
Arguments Starved {A}.

Record state : Type := mk_state {
  self : run;
  env : world
}.

Definition M (A : Type) : Type := state -> outcome A * state.

Definition ret {A} (a : A) : M A := fun s => (Ret a, s).

Definition bind {A B} (m : M A) (k : A -> M B) : M B :=
  fun s =>
    match m s with
    | (Ret a, s') => k a s'
    | (Panic p, s') => (Panic p, s')
    | (Starved, s') => (Starved, s')
    end.

Declare Scope go_scope.
Delimit Scope go_scope with go.
Notation "x <- m ;; k" := (bind m (fun x => k))
  (at level 100, m at next level, right associativity) : go_scope.
Notation "m ;; k" := (bind m (fun _ => k))
  (at level 100, right associativity) : go_scope.
Local Open Scope go_scope.

Definition do_panic {A} (p : panic) : M A := fun s => (Panic p, s).

(** [defer cleanup] around [body]: the cleanup also runs while panicking. *)
Definition defer {A} (cleanup : M unit) (body : M A) : M A :=
  fun s =>
    match body s with
    | (o, s') => (o, snd (cleanup s'))
    end.

Definition get_params : M params := fun s => (Ret (Parameters (self s)), s).

Definition modify_params (f : params -> params) : M unit :=
  fun s =>
    (Ret tt,
     {| self := {| Parameters := f (Parameters (self s));
                   Results := Results (self s) |};
        env := env s |}).

Definition emit (e : event) : M unit :=
  fun s =>
    (Ret tt,
     {| self := self s;
        env := {| dials := dials (env s); ticks := ticks (env s);
                  trace := trace (env s) ++ [e] |} |}).

(** [r.Results[i].field = v]: the index is checked against [len(r.Results)]. *)
Definition update_result (i : Z) (f : result -> result) : M unit :=
  fun s =>
    let len := Z.of_nat (length (Results (self s))) in
    if (0 <=? i) && (i <? len) then
      (Ret tt,
       {| self := {| Parameters := Parameters (self s);
                     Results := alter f (Z.to_nat i) (Results (self s)) |};
          env := env s |})
    else (Panic (IndexOutOfRange i len), s).

(** ** Arithmetic of [time] *)

(** [int64] multiplication wraps around. *)
Definition wrap64 (z : Z) : Z := (z + 2 ^ 63) mod 2 ^ 64 - 2 ^ 63.

(** [time.Duration(n) * time.Second]. *)
Definition seconds_duration (n : Z) : Z := wrap64 (n * 1000000000).

(** [t.Sub(u)]: the difference, kept within the range of [time.Duration]. *)
Definition Sub (t u : Z) : Z := Z.max (- 2 ^ 63) (Z.min (2 ^ 63 - 1) (t - u)).

(** ** The program *)

Section Program.

Variable net : network.

(** [time.Now()] *)
Definition time_Now : M Z :=
  fun s =>
    (Ret (Now net (ticks (env s))),
     {| self := self s;
        env := {| dials := dials (env s); ticks := S (ticks (env s));
                  trace := trace (env s) |} |}).

(** [net.LookupHost(host)] *)
Definition net_LookupHost (host : string) : M (list string + net_error) :=
  emit (EvLookupHost host);;
  ret (LookupHost net host).

(** [net.Dial("udp", address)]: the number of the connection, or an error. *)
Definition net_Dial (address : string) : M (nat + net_error) :=
  fun s =>
    let k := dials (env s) in
    (Ret (match Dial net k address with
          | None => inl k
          | Some e => inr e
          end),
     {| self := self s;
        env := {| dials := S k; ticks := ticks (env s);
                  trace := trace (env s) ++ [EvDial "udp" address] |} |}).

Definition port_error (p : params) : error :=
  Errorf "%s ping requires a valid destination port between 0 and 65535, got %d"
         [OpStr (Protocol p); OpInt (DestinationPort p)].

Definition no_ip_error : error :=
  Errorf "FQDN does not resolve to any known ip" [].

Definition invalid_ip_error (ip : string) : error :=
  Errorf "destination IP is invalid: %v" [OpStr ip].

(** [func (r *run) ValidateParameters() (err error)].  The named result
    [err] is the variable that [ips, err := net.LookupHost(...)] assigns, so
    the bare [return] at the end gives back what the lookup left in it. *)
Definition ValidateParameters : M (option error) :=
  p <- get_params;;
  if negb (String.eqb (Protocol p) "icmp")
     && ((DestinationPort p <? 0) || (DestinationPort p >? 65535))
  then ret (Some (port_error p))
  else
    looked <- net_LookupHost (Destination p);;
    let err :=
      match looked with inl _ => None | inr e => Some (NetError e) end in
    let candidate :=
      match looked with
      | inr _ => inl (Destination p)
      | inl [] => inr no_ip_error
      | inl (ip0 :: _) => inl ip0
      end in
    match candidate with
    | inr e => ret (Some e)
    | inl ip =>
        if ParseIP net ip then
          modify_params (set_ipDest ip);;
          p <- get_params;;
          (if Timeout p =? 0 then modify_params (set_Timeout 5) else ret tt);;
          p <- get_params;;
          (if Count p =? 0 then modify_params (set_Count 3) else ret tt);;
          ret err
        else ret (Some (invalid_ip_error ip))
    end.

(** The classification of a failed read inside [pingUdp]. *)
Definition read_error (err : net_error) : M (option error) :=
  match err with
  | OpError timeout text =>
      if timeout then ret (Some (Errorf E_Timeout []))
      else if Contains text "connection refused"
           then ret (Some (Errorf E_ConnRefused []))
           else ret (Some (Errorf "read Error: %v" [OpStr text]))
  | OtherError _ => do_panic (TypeAssertion (NetError err))
  end.

(** [func (r *run) pingUdp() error] *)
Definition pingUdp : M (option error) :=
  p <- get_params;;
  let destination :=
    Destination p +:+ ":" +:+ Sprintf "%d" [OpInt (DestinationPort p)] in
  c <- net_Dial destination;;
  match c with
  | inr err =>
      emit (EvLog (Error_text (NetError err)));;
      ret (Some (NetError err))
  | inl k =>
      emit (EvWrite "Ping!Ping!Ping!");;
      now <- time_Now;;
      emit (EvSetReadDeadline now (seconds_duration (Timeout p)));;
      defer (emit EvClose)
        (emit (EvRead 1500);;
         match Read net k destination with
         | inr err => read_error err
         | inl _ =>
             emit (EvPrintf (Sprintf "%v bytes from %v"
                                     [OpInt 1500; OpStr destination]));;
             ret None
         end)
  end.

(** What [Run] writes into [r.Results[i]] when [pingUdp] gave an error. *)
Definition record_error (i : Z) (err : error) : M unit :=
  if String.eqb (Error_text err) E_Timeout then
    update_result i (set_Error E_Timeout);;
    update_result i (set_Success false)
  else if String.eqb (Error_text err) E_ConnRefused then
    update_result i (set_Error E_ConnRefused);;
    update_result i (set_Success true)
  else
    update_result i (set_Error (Error_text err));;
    update_result i (set_Success false).

(** The body of the loop of [Run], for one index [i]. *)
Definition attempt (i : Z) : M unit :=
  start <- time_Now;;
  p <- get_params;;
  emit (EvPrintf (Sprintf ("[%v] pinging %s:%d" +:+ newline)
                          [OpInt i; OpStr (Destination p);
                           OpInt (DestinationPort p)]));;
  err <- pingUdp;;
  match err with
  | Some e => record_error i e
  | None => ret tt
  end;;
  end_ <- time_Now;;
  let elapsed := Sub end_ start in
  update_result i (set_RTT elapsed);;
  p <- get_params;;
  update_result i (set_res_Destination (Destination p));;
  p <- get_params;;
  update_result i (set_res_DestinationPort (DestinationPort p));;
  p <- get_params;;
  update_result i (set_res_Protocol (Protocol p)).

(** [for ; i < r.Parameters.Count; i++ { ... }], entered at index [i].  The
    condition is read from the state at every turn; [fuel] bounds the number
    of turns and [Starved] tells that it ran out. *)
Fixpoint for_loop (fuel : nat) (i : Z) : M unit :=
  fun s =>
    if i <? Count (Parameters (self s)) then
      match fuel with
      | O => (Starved, s)
      | S fuel' => (attempt i;; for_loop fuel' (i + 1)) s
      end
    else (Ret tt, s).

(** [func (r *run) Run() error] *)
Definition Run : M (option error) :=
  err <- ValidateParameters;;
  match err with
  | Some e => ret (Some e)
  | None =>
      p <- get_params;;
      if String.eqb (Protocol p) "udp" then
        for_loop (Z.to_nat (Count p)) 0;;
        ret None
      else ret (Some (Errorf "protocol %s is not supported"
                             [OpStr (Protocol p)]))
  end.

(** [make([]result, n)] *)
Definition make_results (n : Z) : M (list result) :=
  if n <? 0 then do_panic (MakeSliceLen n)
  else ret (replicate (Z.to_nat n) zero_result).

(** [main], from the point where the address and the flags are known: it
    builds the parameters and the result slice, runs, and hands
    [r.Results] to the printer.  [timeout] and [count] stand for [*timeout]
    and [*count]; the program itself only ever has 5 and 3 there (see
    [main_program]). *)
Definition main_body (ip : string) (port timeout count : Z) : M (list result) :=
  let params :=
    {| Destination := ip; DestinationPort := port; Timeout := timeout;
       Count := count; Protocol := "udp"; ipDest := "" |} in
  res <- make_results count;;
  (fun s => (Ret tt, {| self := {| Parameters := params; Results := res |};
                        env := env s |}));;
  err <- Run;;
  match err with
  | Some e => do_panic (PanicError e)
  | None => fun s => (Ret (Results (self s)), s)
  end.

End Program.

Definition main (net : network) (ip : string) (port timeout count : Z)
  : outcome (list result) * state :=
  main_body net ip port timeout count
    {| self := {| Parameters := mk_params "" 0 "" 0 0 ""; Results := [] |};
       env := world0 |}.

(** ** Vocabulary of the statements *)

(** The address [pingUdp] builds for parameters [p]. *)
Definition dial_address (p : params) : string :=
  Destination p +:+ ":" +:+ Sprintf "%d" [OpInt (DestinationPort p)].

(** What [pingUdp] returns when it runs with parameters [p] and its call of
    [net.Dial] is the [k]-th one. *)
Definition probe (net : network) (k : nat) (p : params) : outcome (option error) :=
  fst (pingUdp net {| self := {| Parameters := p; Results := [] |};
                      env := {| dials := k; ticks := 0; trace := [] |} |}).

(** [i] is a valid index of [r.Results]. *)
Definition in_range (i : Z) (s : state) : bool :=
  (0 <=? i) && (i <? Z.of_nat (length (Results (self s)))).

(** The entry [record_error] leaves, as a function of the entry it found. *)
Definition recorded (o : option error) (x : result) : result :=
  match o with
  | None => x
  | Some e =>
      if String.eqb (Error_text e) E_Timeout then
        set_Success false (set_Error E_Timeout x)
      else if String.eqb (Error_text e) E_ConnRefused then
        set_Success true (set_Error E_ConnRefused x)
      else set_Success false (set_Error (Error_text e) x)
  end.

(** The four assignments that end the loop body. *)
Definition stamped (p : params) (elapsed : Z) (x : result) : result :=
  set_res_Protocol (Protocol p)
    (set_res_DestinationPort (DestinationPort p)
       (set_res_Destination (Destination p) (set_RTT elapsed x))).

(** The events of kind [EvDial] of a trace: the addresses dialed, in order. *)
Definition dialed (t : list event) : list string :=
  omap (fun e => match e with EvDial _ a => Some a | _ => None end) t.

Definition is_panic {A} (o : outcome A) : bool :=
  match o with Panic _ => true | _ => false end.

(** The port check of [ValidateParameters] lets [p] through. *)
Definition port_ok (p : params) : bool :=
  negb (negb (String.eqb (Protocol p) "icmp")
        && ((DestinationPort p <? 0) || (DestinationPort p >? 65535))).

(** The defaults [ValidateParameters] applies to the timeout and the count. *)
Definition defaulted (p : params) : params :=
  let p1 := if Timeout p =? 0 then set_Timeout 5 p else p in
  if Count p1 =? 0 then set_Count 3 p1 else p1.

Definition with_params (p : params) (s : state) : state :=
  {| self := {| Parameters := p; Results := Results (self s) |}; env := env s |}.

(** The state once [net.LookupHost] has been called. *)
Definition looked_up (s : state) : state :=
  {| self := self s;
     env := {| dials := dials (env s); ticks := ticks (env s);
               trace := trace (env s)
                        ++ [EvLookupHost (Destination (Parameters (self s)))] |} |}.

(** The error [Run] returns for a protocol it does not implement. *)
Definition unsupported (p : params) : error :=
  Errorf "protocol %s is not supported" [OpStr (Protocol p)].

(** ** A sample network and sample requests *)

(** A resolver that knows [localhost], a closed-form parser that accepts the
    one address it hands out, and a peer that answers the first datagram,
    stays silent on the second, refuses the third and is unreachable
    afterwards. *)
Definition sample_net : network :=
  {| LookupHost := fun host =>
       if String.eqb host "localhost" then inl ["127.0.0.1"%string]
       else if String.eqb host "127.0.0.1" then inl ["127.0.0.1"%string]
       else if String.eqb host "empty.example" then inl []
       else inr (OtherError ("lookup " +:+ host +:+ ": no such host"));
     ParseIP := fun ip => String.eqb ip "127.0.0.1";
     Dial := fun _ _ => None;
     Read := fun k _ =>
       match k with
       | O => inl 4%nat
       | 1%nat => inr (OpError true "read udp: i/o timeout")
       | 2%nat => inr (OpError false "read udp: read: connection refused")
       | _ => inr (OpError false "read udp: read: network is unreachable")
       end;
     Now := fun k => 1000 * Z.of_nat k |}.

Definition sample_params (host : string) (proto : string) (port count : Z) : params :=
  {| Destination := host; DestinationPort := port; Protocol := proto;
     Count := count; Timeout := 1; ipDest := "" |}.

(** A request as [main] builds it: the slice sized from the raw count. *)
Definition sample_state (host proto : string) (port count : Z) : state :=
  {| self := {| Parameters := sample_params host proto port count;
                Results := replicate (Z.to_nat count) zero_result |};
     env := world0 |}.

(** ** The command line of main.go *)

(** [strings.LastIndex(s, substr)]: the index of the last occurrence of
    [substr] in [s], or -1. *)
Fixpoint LastIndex (s substr : string) : Z :=
  match s with
  | EmptyString =>
      match substr with EmptyString => 0 | _ => -1 end
  | String _ s' =>
      let r := LastIndex s' substr in
      if 0 <=? r then r + 1
      else if String.prefix substr s then 0 else -1
  end.

(** [s[:n]] and [s[n:]], for [n] within the string. *)
Fixpoint slice_to (n : nat) (s : string) : string :=
  match n, s with
  | S n', String c s' => String c (slice_to n' s')
  | _, _ => EmptyString
  end.

Fixpoint slice_from (n : nat) (s : string) : string :=
  match n, s with
  | S n', String _ s' => slice_from n' s'
  | _, _ => s
  end.

(** The two causes a [*strconv.NumError] carries. *)
Inductive num_cause : Type := ErrSyntax | ErrRange.

(** A [*strconv.NumError] of [ParseInt]: the text that was parsed and the
    cause. *)
Record NumError : Type := mk_NumError {
  Num : string;
  Err : num_cause
}.

Definition maxUint64 : Z := 2 ^ 64 - 1.

(** The value of a decimal digit, or nothing for any other byte. *)
Definition digit_value (c : ascii) : option Z :=
  let b := Z.of_N (N_of_ascii c) in
  if (48 <=? b) && (b <=? 57) then Some (b - 48) else None.

(** The loop of [strconv.ParseUint(s, 10, 64)] over the bytes of [s], with
    [n] the value read so far.  A byte that is no decimal digit is a syntax
    error; a value that leaves [uint64] is a range error, reported at the
    digit where it happens, with the largest value. *)
Fixpoint ParseUint_loop (s : string) (n : Z) : Z * option num_cause :=
  match s with
  | EmptyString => (n, None)
  | String c s' =>
      match digit_value c with
      | None => (0, Some ErrSyntax)
      | Some d =>
          if n >=? maxUint64 / 10 + 1 then (maxUint64, Some ErrRange)
          else
            let n1 := n * 10 + d in
            if n1 >? maxUint64 then (maxUint64, Some ErrRange)
            else ParseUint_loop s' n1
      end
  end.

(** [strconv.ParseUint(s, 10, 64)] *)
Definition ParseUint (s : string) : Z * option num_cause :=
  match s with
  | EmptyString => (0, Some ErrSyntax)
  | _ => ParseUint_loop s 0
  end.

(** [strconv.ParseInt(s, 10, 64)]: an optional sign, then [ParseUint]; a
    magnitude that does not fit [int64] is a range error. *)
Definition ParseInt (s : string) : Z * option NumError :=
  match s with
  | EmptyString => (0, Some {| Num := s; Err := ErrSyntax |})
  | String c rest =>
      let neg := Ascii.eqb c "-" in
      let digits := if Ascii.eqb c "+" || Ascii.eqb c "-" then rest else s in
      match ParseUint digits with
      | (_, Some ErrSyntax) => (0, Some {| Num := s; Err := ErrSyntax |})
      | (un, _) =>
          let cutoff := 2 ^ 63 in
          if negb neg && (un >=? cutoff) then
            (cutoff - 1, Some {| Num := s; Err := ErrRange |})
          else if neg && (un >? cutoff) then
            (- cutoff, Some {| Num := s; Err := ErrRange |})
          else
            let n := wrap64 un in
            (if neg then wrap64 (- n) else n, None)
      end
  end.

(** How [main] ends. *)
Inductive exit : Type :=
| InvalidAddress
| PortPanic (e : NumError)
| Ran (r : outcome (list result) * state).

(** [main] from the point where [flag.Arg(0)] and the two flag values are
    known: it splits the argument at its last colon, which must not be the
    first byte, parses the port, and goes on as [main] above.  [int(port)]
    keeps the value, [int] being 64 bits wide. *)
Definition main_args (net : network) (ipport : string) (timeout count : Z)
  : exit :=
  let i := LastIndex ipport ":" in
  if i >? 0 then
    let portStr := slice_from (Z.to_nat (i + 1)) ipport in
    let ip := slice_to (Z.to_nat i) ipport in
    match ParseInt portStr with
    | (_, Some err) => PortPanic err
    | (port, None) => Ran (main net ip port timeout count)
    end
  else InvalidAddress.

(** [main] as the program runs it.  [flag.Parse()] is called before
    [flag.Int] declares the two flags, so the command line never sets them:
    [*timeout] is 5 and [*count] is 3 in every run. *)
Definition main_program (net : network) (ipport : string) : exit :=
  main_args net ipport 5 3.

(** A network whose resolver answers [ips] for [localhost]: with two lists
    it stands for the same resolver at two times. *)
Definition sample_net_answering (ips : list string) : network :=
  {| LookupHost := fun host =>
       if String.eqb host "localhost" then inl ips
       else inr (OtherError ("lookup " +:+ host +:+ ": no such host"));
     ParseIP := fun ip =>
       String.eqb ip "127.0.0.1" || String.eqb ip "127.0.0.2";
     Dial := fun _ _ => None;
     Read := fun _ _ => inl 4%nat;
     Now := fun k => 1000 * Z.of_nat k |}.

(** ** Vocabulary: the events of a turn, sockets, the clock *)

(** The line [Run] prints before each attempt. *)
Definition banner (i : Z) (p : params) : string :=
  Sprintf ("[%v] pinging %s:%d" +:+ newline)
          [OpInt i; OpStr (Destination p); OpInt (DestinationPort p)].

(** The events of one call of [pingUdp], as the network's answers shape
    them: [k] is the number of the dial and [now] the clock reading used for
    the deadline. *)
Definition ping_events (net : network) (k : nat) (p : params) (now : Z)
  : list event :=
  EvDial "udp" (dial_address p)
  :: match Dial net k (dial_address p) with
     | Some e => [EvLog (Error_text (NetError e))]
     | None =>
         [EvWrite "Ping!Ping!Ping!";
          EvSetReadDeadline now (seconds_duration (Timeout p));
          EvRead 1500]
         ++ match Read net k (dial_address p) with
            | inl _ =>
                [EvPrintf (Sprintf "%v bytes from %v"
                                   [OpInt 1500; OpStr (dial_address p)])]
            | inr _ => []
            end
         ++ [EvClose]
     end.

(** The world after the call of [pingUdp] in a turn at index [i] that starts
    in state [s]: one more dial, one clock reading for the start and one for
    the deadline of a socket that was opened. *)
Definition turn_world (net : network) (i : Z) (s : state) : world :=
  let p := Parameters (self s) in
  {| dials := S (dials (env s));
     ticks := match Dial net (dials (env s)) (dial_address p) with
              | None => S (S (ticks (env s)))
              | Some _ => S (ticks (env s))
              end;
     trace := trace (env s)
              ++ EvPrintf (banner i p)
                 :: ping_events net (dials (env s)) p
                      (Now net (S (ticks (env s)))) |}.

Definition set_DestinationPort (v : Z) (p : params) : params :=
  {| Destination := Destination p; DestinationPort := v;
     Protocol := Protocol p; Count := Count p; Timeout := Timeout p;
     ipDest := ipDest p |}.

(** A socket is in use from its first write to its close. *)
Inductive socket : Type := Closed | InUse.

(** The discipline of sockets over a trace: I/O and close only on a socket
    in use; no dial, no second payload and no lookup while one is in use. *)
Definition socket_step (st : socket) (e : event) : option socket :=
  match st, e with
  | Closed, EvWrite _ => Some InUse
  | Closed, EvSetReadDeadline _ _ => None
  | Closed, EvRead _ => None
  | Closed, EvClose => None
  | Closed, _ => Some Closed
  | InUse, EvClose => Some Closed
  | InUse, EvDial _ _ => None
  | InUse, EvWrite _ => None
  | InUse, EvLookupHost _ => None
  | InUse, _ => Some InUse
  end.

Fixpoint socket_run (st : socket) (t : list event) : option socket :=
  match t with
  | [] => Some st
  | e :: t' =>
      match socket_step st e with
      | Some st' => socket_run st' t'
      | None => None
      end
  end.

(** The clock never goes back. *)
Definition monotone_clock (net : network) : Prop :=
  forall a b : nat, (a <= b)%nat -> Now net a <= Now net b.

(** The state [main] starts [Run] in. *)
Definition main_state (ip : string) (port timeout count : Z) : state :=
  {| self := {| Parameters :=
                  {| Destination := ip; DestinationPort := port;
                     Protocol := "udp"; Count := count; Timeout := timeout;
                     ipDest := "" |};
                Results := replicate (Z.to_nat count) zero_result |};
     env := world0 |}.

(** A network like [sample_net] on which no dial succeeds. *)
Definition sample_net_down : network :=
  {| LookupHost := LookupHost sample_net;
     ParseIP := ParseIP sample_net;
     Dial := fun _ _ => Some (OpError false "dial udp: network is unreachable");
     Read := Read sample_net;
     Now := Now sample_net |}.

(** ** The text functions on sample inputs *)

Example itoa_samples :
  itoa 0 = "0"%string /\ itoa 65535 = "65535"%string /\ itoa (-5) = "-5"%string.
Proof. repeat split; reflexivity. Qed.

Example Sprintf_samples :
  Sprintf "%d" [OpInt 9] = "9"%string /\
  Sprintf "%v bytes from %v" [OpInt 1500; OpStr "10.0.0.1:53"]
    = "1500 bytes from 10.0.0.1:53"%string /\
  Sprintf E_Timeout [] = "timeout"%string /\
  Sprintf "read Error: %v" [OpStr "broken pipe"]
    = "read Error: broken pipe"%string.
Proof. repeat split; reflexivity. Qed.

Example Contains_samples :
  Contains "read udp 127.0.0.1:9: read: connection refused"
           "connection refused" = true /\
  Contains "read udp 127.0.0.1:9: i/o timeout" "connection refused" = false /\
  Contains "" "" = true.
Proof. repeat split; reflexivity. Qed.

Example wrap64_samples :
  seconds_duration 5 = 5000000000 /\
  seconds_duration 9223372037 = -9223372036709551616.
Proof. repeat split; reflexivity. Qed.

(** ** Primitive steps *)

Section Facts.

Variable net : network.

Lemma update_result_in_range i f s :
  in_range i s = true ->
  update_result i f s =
    (Ret tt,
     {| self := {| Parameters := Parameters (self s);
                   Results := alter f (Z.to_nat i) (Results (self s)) |};
        env := env s |}).
Proof.
  unfold in_range, update_result. intros H. now rewrite H.
Qed.

Lemma update_result_out_of_range i f s :
  in_range i s = false ->
  update_result i f s =
    (Panic (IndexOutOfRange i (Z.of_nat (length (Results (self s))))), s).
Proof.
  unfold in_range, update_result. intros H. now rewrite H.
Qed.

Lemma in_range_alter i j f p l w :
  in_range i {| self := {| Parameters := p; Results := alter f j l |}; env := w |}
  = in_range i {| self := {| Parameters := p; Results := l |}; env := w |}.
Proof. unfold in_range; cbn. now rewrite length_alter. Qed.

Lemma in_range_env i r w w' :
  in_range i {| self := r; env := w |} = in_range i {| self := r; env := w' |}.
Proof. reflexivity. Qed.

(** [pingUdp] leaves the receiver alone, dials exactly once, and its result
    depends only on the parameters and on which dial this is. *)
Lemma pingUdp_spec s :
  exists w',
    pingUdp net s =
      (probe net (dials (env s)) (Parameters (self s)),
       {| self := self s; env := w' |})
    /\ dials w' = S (dials (env s))
    /\ dialed (trace w') =
         dialed (trace (env s)) ++ [dial_address (Parameters (self s))].
Proof.
  destruct s as [[p rs] [k t tr]].
  unfold probe, pingUdp, bind, get_params, net_Dial, dial_address; cbn.
  destruct (Dial net k _) as [e|]; cbn.
  - eexists; split; [reflexivity|]. cbn. split; [reflexivity|].
    unfold dialed. rewrite !omap_app. cbn. now rewrite app_nil_r.
  - unfold defer, bind, emit, time_Now; cbn.
    destruct (Read net k _) as [n|[tm tx|tx]]; cbn.
    + eexists; split; [reflexivity|]. cbn. split; [reflexivity|].
      unfold dialed. rewrite !omap_app. cbn. now rewrite !app_nil_r.
    + unfold read_error.
      destruct tm; [|destruct (Contains tx _)]; cbn;
        (eexists; split; [reflexivity|]; cbn; split; [reflexivity|];
         unfold dialed; rewrite !omap_app; cbn; now rewrite !app_nil_r).
    + eexists; split; [reflexivity|]. cbn. split; [reflexivity|].
      unfold dialed. rewrite !omap_app. cbn. now rewrite !app_nil_r.
Qed.

End Facts.

(** ** One turn of the loop *)

Section Attempt.

Variable net : network.

Lemma probe_cases k p :
  probe net k p =
    match Dial net k (dial_address p) with
    | Some e => Ret (Some (NetError e))
    | None =>
        match Read net k (dial_address p) with
        | inl _ => Ret None
        | inr (OpError true _) => Ret (Some (Errorf E_Timeout []))
        | inr (OpError false text) =>
            if Contains text "connection refused"
            then Ret (Some (Errorf E_ConnRefused []))
            else Ret (Some (Errorf "read Error: %v" [OpStr text]))
        | inr (OtherError text) => Panic (TypeAssertion (NetError (OtherError text)))
        end
    end.
Proof.
  unfold probe, pingUdp, bind, get_params, net_Dial, dial_address; cbn.
  destruct (Dial net k _) as [e|]; cbn; [reflexivity|].
  unfold defer, bind, emit, time_Now; cbn.
  destruct (Read net k _) as [n|[[|] tx|tx]]; cbn; try reflexivity.
  destruct (Contains tx _); reflexivity.
Qed.

Lemma probe_not_starved k p : probe net k p <> Starved.
Proof.
  rewrite probe_cases.
  destruct (Dial net k _); [discriminate|].
  destruct (Read net k _) as [n|[[|] tx|tx]]; try discriminate.
  destruct (Contains tx _); discriminate.
Qed.

Lemma record_error_in_range i e s :
  in_range i s = true ->
  record_error i e s =
    (Ret tt,
     {| self := {| Parameters := Parameters (self s);
                   Results := alter (recorded (Some e)) (Z.to_nat i)
                                    (Results (self s)) |};
        env := env s |}).
Proof.
  intros H. unfold record_error, recorded.
  destruct (String.eqb (Error_text e) E_Timeout);
    [|destruct (String.eqb (Error_text e) E_ConnRefused)];
    unfold bind; rewrite (update_result_in_range _ _ _ H);
    (rewrite update_result_in_range
       by (destruct s as [[p l] w]; cbn; now rewrite in_range_alter));
    cbn; now rewrite list_alter_alter_eq.
Qed.

Lemma record_error_out_of_range i e s :
  in_range i s = false ->
  record_error i e s =
    (Panic (IndexOutOfRange i (Z.of_nat (length (Results (self s))))), s).
Proof.
  intros H. unfold record_error.
  destruct (String.eqb (Error_text e) E_Timeout);
    [|destruct (String.eqb (Error_text e) E_ConnRefused)];
    unfold bind; now rewrite (update_result_out_of_range _ _ _ H).
Qed.

Local Opaque pingUdp.

(** A turn whose index is in range and whose probe returns: the entry is
    rewritten in place, nothing else of the receiver changes. *)
Lemma attempt_in_range i s o :
  in_range i s = true ->
  probe net (dials (env s)) (Parameters (self s)) = Ret o ->
  exists elapsed w',
    attempt net i s =
      (Ret tt,
       {| self := {| Parameters := Parameters (self s);
                     Results :=
                       alter (fun x => stamped (Parameters (self s)) elapsed
                                               (recorded o x))
                             (Z.to_nat i) (Results (self s)) |};
          env := w' |})
    /\ dials w' = S (dials (env s))
    /\ dialed (trace w') =
         dialed (trace (env s)) ++ [dial_address (Parameters (self s))].
Proof.
  intros Hin Hpr. destruct s as [[p l] [k t tr]].
  unfold attempt, bind, time_Now, get_params, emit, ret; cbn.
  match goal with |- context [pingUdp net ?s1] =>
    destruct (pingUdp_spec net s1) as (w1 & Hp & Hd & Ht) end.
  rewrite Hp; cbn in *. rewrite Hpr.
  assert (Hin1 : forall w, in_range i {| self := {| Parameters := p; Results := l |}; env := w |} = true)
    by (intros; exact Hin).
  unfold dialed in Ht; rewrite omap_app in Ht; cbn in Ht; rewrite app_nil_r in Ht.
  destruct o as [e|].
  - rewrite record_error_in_range by apply Hin1. cbn.
    repeat (rewrite update_result_in_range
              by (cbn; rewrite ?in_range_alter; apply Hin1); cbn).
    exists (Sub (Now net (ticks w1)) (Now net t)),
      {| dials := dials w1; ticks := S (ticks w1); trace := trace w1 |}.
    split; [|split; [exact Hd | exact Ht]].
    rewrite !list_alter_alter_eq. reflexivity.
  - repeat (rewrite update_result_in_range
              by (cbn; rewrite ?in_range_alter; apply Hin1); cbn).
    exists (Sub (Now net (ticks w1)) (Now net t)),
      {| dials := dials w1; ticks := S (ticks w1); trace := trace w1 |}.
    split; [|split; [exact Hd | exact Ht]].
    rewrite !list_alter_alter_eq. reflexivity.
Qed.

(** A turn whose index is out of range panics at its first write. *)
Lemma attempt_out_of_range i s o :
  in_range i s = false ->
  probe net (dials (env s)) (Parameters (self s)) = Ret o ->
  exists w',
    attempt net i s =
      (Panic (IndexOutOfRange i (Z.of_nat (length (Results (self s))))),
       {| self := self s; env := w' |}).
Proof.
  intros Hin Hpr. destruct s as [[p l] [k t tr]].
  unfold attempt, bind, time_Now, get_params, emit, ret; cbn.
  match goal with |- context [pingUdp net ?s1] =>
    destruct (pingUdp_spec net s1) as (w1 & Hp & Hd & Ht) end.
  rewrite Hp; cbn in *. rewrite Hpr.
  assert (Hin1 : forall w, in_range i {| self := {| Parameters := p; Results := l |}; env := w |} = false)
    by (intros; exact Hin).
  destruct o as [e|].
  - rewrite record_error_out_of_range by apply Hin1. cbn. eauto.
  - rewrite update_result_out_of_range by apply Hin1. cbn. eauto.
Qed.

(** A turn whose probe panics passes the panic on. *)
Lemma attempt_probe_panic i s q :
  probe net (dials (env s)) (Parameters (self s)) = Panic q ->
  exists w', attempt net i s = (Panic q, {| self := self s; env := w' |}).
Proof.
  intros Hpr. destruct s as [[p l] [k t tr]].
  unfold attempt, bind, time_Now, get_params, emit, ret; cbn.
  match goal with |- context [pingUdp net ?s1] =>
    destruct (pingUdp_spec net s1) as (w1 & Hp & Hd & Ht) end.
  rewrite Hp; cbn in *. rewrite Hpr. eauto.
Qed.

(** The same turn, read at its own entry. *)
Lemma attempt_entry i s o :
  in_range i s = true ->
  probe net (dials (env s)) (Parameters (self s)) = Ret o ->
  exists s' x elapsed,
    attempt net i s = (Ret tt, s') /\
    Results (self s) !! Z.to_nat i = Some x /\
    Results (self s') !! Z.to_nat i
      = Some (stamped (Parameters (self s)) elapsed (recorded o x)).
Proof.
  intros Hin Hpr.
  destruct (attempt_in_range i s o Hin Hpr) as (el & w1 & Ha & _).
  unfold in_range in Hin. apply andb_true_iff in Hin as [H0 H1].
  apply Z.leb_le in H0. apply Z.ltb_lt in H1.
  destruct (lookup_lt_is_Some_2 (Results (self s)) (Z.to_nat i)) as [x Hx];
    [lia|].
  eexists _, x, el. split; [exact Ha|]. split; [exact Hx|].
  cbn. now rewrite list_lookup_alter_eq, Hx.
Qed.

End Attempt.

(** ** The loop *)

Section Loop.

Variable net : network.

Lemma for_loop_O i s :
  for_loop net O i s =
    if i <? Count (Parameters (self s)) then (Starved, s) else (Ret tt, s).
Proof. reflexivity. Qed.

Lemma for_loop_S fuel i s :
  for_loop net (S fuel) i s =
    if i <? Count (Parameters (self s))
    then bind (attempt net i) (fun _ => for_loop net fuel (i + 1)) s
    else (Ret tt, s).
Proof. reflexivity. Qed.

Lemma in_range_lookup i s :
  in_range i s = true ->
  exists x, Results (self s) !! Z.to_nat i = Some x.
Proof.
  unfold in_range. intros H.
  apply andb_true_iff in H as [H0 H1].
  apply Z.leb_le in H0. apply Z.ltb_lt in H1.
  apply lookup_lt_is_Some. lia.
Qed.

(** The loop when it returns: the parameters and the length of the slice are
    as before, the slice was long enough, every index from [i] up to the
    count was probed once, in order, and holds what its probe gave; the other
    entries are as before. *)
Lemma for_loop_ret fuel : forall i s s',
  0 <= i ->
  for_loop net fuel i s = (Ret tt, s') ->
  Parameters (self s') = Parameters (self s) /\
  length (Results (self s')) = length (Results (self s)) /\
  (i < Count (Parameters (self s)) ->
   Count (Parameters (self s)) <= Z.of_nat (length (Results (self s)))) /\
  dials (env s') =
    (dials (env s) + Z.to_nat (Count (Parameters (self s)) - i))%nat /\
  dialed (trace (env s')) =
    dialed (trace (env s))
    ++ replicate (Z.to_nat (Count (Parameters (self s)) - i))
                 (dial_address (Parameters (self s))) /\
  forall j : nat,
    (i <= Z.of_nat j < Count (Parameters (self s)) ->
     exists x o elapsed,
       Results (self s) !! j = Some x /\
       probe net (dials (env s) + (j - Z.to_nat i))%nat (Parameters (self s))
         = Ret o /\
       Results (self s') !! j
         = Some (stamped (Parameters (self s)) elapsed (recorded o x))) /\
    (~ (i <= Z.of_nat j < Count (Parameters (self s))) ->
     Results (self s') !! j = Results (self s) !! j).
Proof.
  assert (Hstop : forall i s s',
    (i <? Count (Parameters (self s))) = false -> (Ret tt, s) = (Ret tt, s') ->
    Parameters (self s') = Parameters (self s) /\
    length (Results (self s')) = length (Results (self s)) /\
    (i < Count (Parameters (self s)) ->
     Count (Parameters (self s)) <= Z.of_nat (length (Results (self s)))) /\
    dials (env s') =
      (dials (env s) + Z.to_nat (Count (Parameters (self s)) - i))%nat /\
    dialed (trace (env s')) =
      dialed (trace (env s))
      ++ replicate (Z.to_nat (Count (Parameters (self s)) - i))
                   (dial_address (Parameters (self s))) /\
    forall j : nat,
      (i <= Z.of_nat j < Count (Parameters (self s)) ->
       exists x o elapsed,
         Results (self s) !! j = Some x /\
         probe net (dials (env s) + (j - Z.to_nat i))%nat (Parameters (self s))
           = Ret o /\
         Results (self s') !! j
           = Some (stamped (Parameters (self s)) elapsed (recorded o x))) /\
      (~ (i <= Z.of_nat j < Count (Parameters (self s))) ->
       Results (self s') !! j = Results (self s) !! j)).
  { intros i s s' Hlt Heq. inversion Heq; subst s'. apply Z.ltb_ge in Hlt.
    replace (Z.to_nat (Count (Parameters (self s)) - i)) with 0%nat by lia.
    cbn. rewrite app_nil_r, Nat.add_0_r.
    repeat split; try reflexivity; try lia. }
  induction fuel as [|fuel IH]; intros i s s' Hi H.
  - rewrite for_loop_O in H.
    destruct (i <? Count (Parameters (self s))) eqn:Hlt; [discriminate|].
    now apply Hstop.
  - rewrite for_loop_S in H.
    destruct (i <? Count (Parameters (self s))) eqn:Hlt; [|now apply Hstop].
    apply Z.ltb_lt in Hlt. unfold bind in H.
    destruct (probe net (dials (env s)) (Parameters (self s))) as [o|q|] eqn:Hpr.
    + destruct (in_range i s) eqn:Hin.
      * destruct (attempt_in_range net i s o Hin Hpr) as (el & w1 & Ha & Hd & Ht).
        rewrite Ha in H. apply IH in H; [|lia]. cbn in H.
        destruct H as (HP & HL & HC & HD & HT & HJ).
        rewrite length_alter in HL, HC.
        destruct (in_range_lookup i s Hin) as [x Hx].
        assert (Hlen : i < Z.of_nat (length (Results (self s)))).
        { apply lookup_lt_Some in Hx. lia. }
        assert (Hn : Z.to_nat (Count (Parameters (self s)) - i)
                     = S (Z.to_nat (Count (Parameters (self s)) - (i + 1))))
          by lia.
        split; [exact HP|]. split; [exact HL|]. split; [lia|].
        split; [lia|]. split.
        { rewrite HT, Ht, Hn. cbn. now rewrite <- app_assoc. }
        intros j. destruct (HJ j) as [HJ1 HJ2]. split.
        -- intros Hj. destruct (decide (j = Z.to_nat i)) as [->|Hne].
           ++ exists x, o, el. split; [exact Hx|].
              rewrite Nat.sub_diag, Nat.add_0_r. split; [exact Hpr|].
              rewrite HJ2 by lia. rewrite list_lookup_alter_eq, Hx. reflexivity.
           ++ destruct HJ1 as (y & o' & el' & Hy & Hp' & Hz); [lia|].
              rewrite list_lookup_alter_ne in Hy by congruence.
              exists y, o', el'. split; [exact Hy|]. split; [|exact Hz].
              rewrite <- Hp'. f_equal. lia.
        -- intros Hj. rewrite HJ2 by lia.
           apply list_lookup_alter_ne. lia.
      * destruct (attempt_out_of_range net i s o Hin Hpr) as (w1 & Ha).
        rewrite Ha in H. discriminate.
    + destruct (attempt_probe_panic net i s q Hpr) as (w1 & Ha).
      rewrite Ha in H. discriminate.
    + now apply probe_not_starved in Hpr.
Qed.

(** The fuel [Run] gives the loop is enough. *)
Lemma for_loop_not_starved fuel : forall i s,
  0 <= i ->
  Count (Parameters (self s)) - i <= Z.of_nat fuel ->
  fst (for_loop net fuel i s) <> Starved.
Proof.
  induction fuel as [|fuel IH]; intros i s Hi Hf.
  - rewrite for_loop_O.
    destruct (i <? Count (Parameters (self s))) eqn:Hlt; [|discriminate].
    apply Z.ltb_lt in Hlt. lia.
  - rewrite for_loop_S.
    destruct (i <? Count (Parameters (self s))) eqn:Hlt; [|discriminate].
    unfold bind.
    destruct (probe net (dials (env s)) (Parameters (self s))) as [o|q|] eqn:Hpr.
    + destruct (in_range i s) eqn:Hin.
      * destruct (attempt_in_range net i s o Hin Hpr) as (el & w1 & Ha & _).
        rewrite Ha. apply IH; cbn; lia.
      * destruct (attempt_out_of_range net i s o Hin Hpr) as (w1 & Ha).
        rewrite Ha. discriminate.
    + destruct (attempt_probe_panic net i s q Hpr) as (w1 & Ha).
      rewrite Ha. discriminate.
    + now apply probe_not_starved in Hpr.
Qed.

(** The loop returns when the slice is long enough and no probe panics. *)
Lemma for_loop_total fuel : forall i s,
  0 <= i ->
  Count (Parameters (self s)) - i <= Z.of_nat fuel ->
  Count (Parameters (self s)) <= Z.of_nat (length (Results (self s))) ->
  (forall k, is_panic (probe net k (Parameters (self s))) = false) ->
  exists s', for_loop net fuel i s = (Ret tt, s').
Proof.
  induction fuel as [|fuel IH]; intros i s Hi Hf Hlen Hnp.
  - rewrite for_loop_O.
    destruct (i <? Count (Parameters (self s))) eqn:Hlt; [|eauto].
    apply Z.ltb_lt in Hlt. lia.
  - rewrite for_loop_S.
    destruct (i <? Count (Parameters (self s))) eqn:Hlt; [|eauto].
    apply Z.ltb_lt in Hlt. unfold bind.
    destruct (probe net (dials (env s)) (Parameters (self s))) as [o|q|] eqn:Hpr.
    + assert (Hin : in_range i s = true).
      { unfold in_range. apply andb_true_iff. split;
          [apply Z.leb_le | apply Z.ltb_lt]; lia. }
      destruct (attempt_in_range net i s o Hin Hpr) as (el & w1 & Ha & _).
      rewrite Ha. apply IH; cbn; try lia; [now rewrite length_alter | exact Hnp].
    + specialize (Hnp (dials (env s))). rewrite Hpr in Hnp. discriminate.
    + now apply probe_not_starved in Hpr.
Qed.

Lemma probe_panic_kind k p q :
  probe net k p = Panic q -> exists e, q = TypeAssertion e.
Proof.
  rewrite probe_cases.
  destruct (Dial net k _); [discriminate|].
  destruct (Read net k _) as [n|[[|] tx|tx]]; try discriminate.
  - destruct (Contains tx _); discriminate.
  - intros H; inversion H. eauto.
Qed.

(** With a slice at least as long as the count, no write of the loop is out
    of range. *)
Lemma for_loop_in_bounds fuel : forall i s i' n,
  0 <= i ->
  Count (Parameters (self s)) <= Z.of_nat (length (Results (self s))) ->
  fst (for_loop net fuel i s) <> Panic (IndexOutOfRange i' n).
Proof.
  induction fuel as [|fuel IH]; intros i s i' n Hi Hlen.
  - rewrite for_loop_O.
    destruct (i <? Count (Parameters (self s))); discriminate.
  - rewrite for_loop_S.
    destruct (i <? Count (Parameters (self s))) eqn:Hlt; [|discriminate].
    apply Z.ltb_lt in Hlt. unfold bind.
    destruct (probe net (dials (env s)) (Parameters (self s))) as [o|q|] eqn:Hpr.
    + assert (Hin : in_range i s = true).
      { unfold in_range. apply andb_true_iff. split;
          [apply Z.leb_le | apply Z.ltb_lt]; lia. }
      destruct (attempt_in_range net i s o Hin Hpr) as (el & w1 & Ha & _).
      rewrite Ha. apply IH; cbn; [lia | now rewrite length_alter].
    + destruct (attempt_probe_panic net i s q Hpr) as (w1 & Ha).
      rewrite Ha. cbn. apply probe_panic_kind in Hpr as [e ->]. discriminate.
    + now apply probe_not_starved in Hpr.
Qed.

End Loop.

(** ** Validation *)

Section Validation.

Variable net : network.

Lemma append_empty_r (s : string) : s +:+ "" = s.
Proof.
  induction s as [|c s IH]; [reflexivity|].
  change (String c (s +:+ "") = String c s). now rewrite IH.
Qed.

Lemma port_ok_iff p :
  port_ok p = true <->
  Protocol p = "icmp"%string \/ 0 <= DestinationPort p <= 65535.
Proof.
  unfold port_ok.
  destruct (String.eqb_spec (Protocol p) "icmp") as [->|Hne]; cbn.
  - split; auto.
  - rewrite negb_true_iff, orb_false_iff, Z.ltb_ge, Z.gtb_ltb, Z.ltb_ge.
    split; [intros [? ?]; right; lia | intros [?|?]; [contradiction | lia]].
Qed.

(** [ValidateParameters] in closed form. *)
Lemma ValidateParameters_spec s :
  ValidateParameters net s =
    let p := Parameters (self s) in
    if port_ok p then
      match LookupHost net (Destination p) with
      | inl [] => (Ret (Some no_ip_error), looked_up s)
      | inl (ip0 :: _) =>
          if ParseIP net ip0
          then (Ret None, with_params (defaulted (set_ipDest ip0 p)) (looked_up s))
          else (Ret (Some (invalid_ip_error ip0)), looked_up s)
      | inr e =>
          if ParseIP net (Destination p)
          then (Ret (Some (NetError e)),
                with_params (defaulted (set_ipDest (Destination p) p)) (looked_up s))
          else (Ret (Some (invalid_ip_error (Destination p))), looked_up s)
      end
    else (Ret (Some (port_error p)), s).
Proof.
  destruct s as [[p rs] w].
  unfold ValidateParameters, port_ok, bind, get_params, ret; cbn.
  destruct (negb (String.eqb (Protocol p) "icmp")
            && ((DestinationPort p <? 0) || (DestinationPort p >? 65535)));
    cbn; [reflexivity|].
  unfold looked_up, with_params, defaulted, modify_params; cbn.
  destruct (LookupHost net (Destination p)) as [[|ip0 ips]|e]; cbn;
    try reflexivity.
  - destruct (ParseIP net ip0); cbn; [|reflexivity].
    destruct (Timeout p =? 0); cbn; destruct (Count p =? 0); reflexivity.
  - destruct (ParseIP net (Destination p)); cbn; [|reflexivity].
    destruct (Timeout p =? 0); cbn; destruct (Count p =? 0); reflexivity.
Qed.

(** What validation leaves untouched, whatever it returns. *)
Lemma ValidateParameters_frame s :
  let s' := snd (ValidateParameters net s) in
  Results (self s') = Results (self s) /\
  dials (env s') = dials (env s) /\
  dialed (trace (env s')) = dialed (trace (env s)) /\
  Destination (Parameters (self s')) = Destination (Parameters (self s)) /\
  DestinationPort (Parameters (self s')) = DestinationPort (Parameters (self s)) /\
  Protocol (Parameters (self s')) = Protocol (Parameters (self s)).
Proof.
  rewrite ValidateParameters_spec. destruct s as [[p rs] [k t tr]]. cbn.
  assert (Hd : dialed (tr ++ [EvLookupHost (Destination p)]) = dialed tr).
  { unfold dialed. rewrite omap_app. cbn. apply app_nil_r. }
  unfold defaulted.
  destruct (port_ok p); [|cbn; tauto].
  destruct (LookupHost net (Destination p)) as [[|ip0 ips]|e]; cbn; [tauto| |].
  - destruct (ParseIP net ip0); cbn; [|tauto].
    destruct (Timeout p =? 0); cbn; destruct (Count p =? 0); cbn; tauto.
  - destruct (ParseIP net (Destination p)); cbn; [|tauto].
    destruct (Timeout p =? 0); cbn; destruct (Count p =? 0); cbn; tauto.
Qed.

(** When validation returns nil, the lookup succeeded, its first address
    parsed and became [ipDest], and the defaults were applied. *)
Lemma ValidateParameters_nil s s' :
  ValidateParameters net s = (Ret None, s') ->
  exists ip0 ips,
    port_ok (Parameters (self s)) = true /\
    LookupHost net (Destination (Parameters (self s))) = inl (ip0 :: ips) /\
    ParseIP net ip0 = true /\
    s' = with_params (defaulted (set_ipDest ip0 (Parameters (self s))))
                     (looked_up s).
Proof.
  rewrite ValidateParameters_spec. cbn.
  destruct (port_ok _); [|discriminate].
  destruct (LookupHost net _) as [[|ip0 ips]|e]; [discriminate| |].
  - destruct (ParseIP net ip0) eqn:Hp; [|discriminate].
    intros H; inversion H. eauto 6.
  - destruct (ParseIP net _); discriminate.
Qed.

Lemma defaulted_Count p :
  Count (defaulted p) = if Count p =? 0 then 3 else Count p.
Proof.
  unfold defaulted.
  destruct (Timeout p =? 0); cbn; destruct (Count p =? 0); reflexivity.
Qed.

Lemma defaulted_Timeout p :
  Timeout (defaulted p) = if Timeout p =? 0 then 5 else Timeout p.
Proof.
  unfold defaulted.
  destruct (Timeout p =? 0) eqn:Ht; cbn; destruct (Count p =? 0); cbn;
    try reflexivity; now rewrite ?Ht.
Qed.

End Validation.

(** ** The whole run *)

Section WholeRun.

Variable net : network.

(** [Run] in terms of its two phases. *)
Lemma Run_phases s :
  Run net s =
    match ValidateParameters net s with
    | (Ret (Some e), s1) => (Ret (Some e), s1)
    | (Ret None, s1) =>
        if String.eqb (Protocol (Parameters (self s1))) "udp" then
          match for_loop net (Z.to_nat (Count (Parameters (self s1)))) 0 s1 with
          | (Ret _, s2) => (Ret None, s2)
          | (Panic q, s2) => (Panic q, s2)
          | (Starved, s2) => (Starved, s2)
          end
        else (Ret (Some (unsupported (Parameters (self s1)))), s1)
    | (Panic q, s1) => (Panic q, s1)
    | (Starved, s1) => (Starved, s1)
    end.
Proof.
  unfold Run, bind, get_params, ret.
  destruct (ValidateParameters net s) as [[[e|]|q|] s1]; try reflexivity.
  destruct (String.eqb _ _); reflexivity.
Qed.

(** A run that returns nil validated its request, found the protocol to be
    udp, and went through the whole loop. *)
Lemma Run_nil s s' :
  Run net s = (Ret None, s') ->
  exists s1,
    ValidateParameters net s = (Ret None, s1) /\
    Protocol (Parameters (self s1)) = "udp"%string /\
    for_loop net (Z.to_nat (Count (Parameters (self s1)))) 0 s1 = (Ret tt, s').
Proof.
  rewrite Run_phases.
  destruct (ValidateParameters net s) as [[[e|]|q|] s1]; try discriminate.
  destruct (String.eqb_spec (Protocol (Parameters (self s1))) "udp") as [Hu|Hu];
    [|discriminate].
  destruct (for_loop net _ 0 s1) as [[[]|q|] s2] eqn:Hl; try discriminate.
  intros H; inversion H; subst. eauto.
Qed.

(** [Run] never runs out of fuel: it returns or it panics. *)
Lemma Run_not_starved s : fst (Run net s) <> Starved.
Proof.
  rewrite Run_phases.
  destruct (ValidateParameters net s) as [[[e|]|q|] s1] eqn:Hv;
    try (cbn; discriminate).
  - destruct (String.eqb _ _); [|cbn; discriminate].
    pose proof (for_loop_not_starved net
                  (Z.to_nat (Count (Parameters (self s1)))) 0 s1) as Hn.
    destruct (for_loop net _ 0 s1) as [[[]|q|] s2]; cbn in Hn |- *;
      try discriminate.
    intros _. apply Hn; [lia | lia | reflexivity].
  - rewrite ValidateParameters_spec in Hv. cbn in Hv.
    destruct (port_ok _); [|discriminate].
    destruct (LookupHost net _) as [[|ip0 ips]|e]; [discriminate| |];
      destruct (ParseIP net _); discriminate.
Qed.

(** The result of a run that returns nil, entry by entry. *)
Lemma Run_udp_entries s s' :
  Run net s = (Ret None, s') ->
  Protocol (Parameters (self s')) = "udp"%string /\
  Destination (Parameters (self s')) = Destination (Parameters (self s)) /\
  DestinationPort (Parameters (self s')) = DestinationPort (Parameters (self s)) /\
  Count (Parameters (self s')) =
    (if Count (Parameters (self s)) =? 0 then 3 else Count (Parameters (self s))) /\
  length (Results (self s')) = length (Results (self s)) /\
  Count (Parameters (self s')) <= Z.of_nat (length (Results (self s))) /\
  dialed (trace (env s')) =
    dialed (trace (env s))
    ++ replicate (Z.to_nat (Count (Parameters (self s'))))
                 (dial_address (Parameters (self s'))) /\
  forall j : nat,
    Z.of_nat j < Count (Parameters (self s')) ->
    exists x o elapsed,
      Results (self s) !! j = Some x /\
      probe net (dials (env s) + j)%nat (Parameters (self s')) = Ret o /\
      Results (self s') !! j
        = Some (stamped (Parameters (self s')) elapsed (recorded o x)).
Proof.
  intros H. apply Run_nil in H as (s1 & Hv & Hu & Hl).
  pose proof (ValidateParameters_frame net s) as HF. rewrite Hv in HF. cbn in HF.
  destruct HF as (HR & HD & HT & Hdest & Hport & Hproto).
  apply ValidateParameters_nil in Hv as (ip0 & ips & _ & _ & _ & Hs1).
  assert (HC : Count (Parameters (self s1)) =
               if Count (Parameters (self s)) =? 0 then 3
               else Count (Parameters (self s))).
  { rewrite Hs1. cbn. now rewrite defaulted_Count. }
  apply for_loop_ret in Hl; [|lia].
  destruct Hl as (HP & HL & HC' & _ & HT' & HJ).
  rewrite HP, Hu, Hdest, Hport, HL, HR, HT', HT, HC.
  rewrite <- HC, Z.sub_0_r.
  repeat split; try reflexivity.
  - rewrite <- HR. lia.
  - intros j Hj. destruct (HJ j) as [HJ1 _].
    destruct HJ1 as (x & o & el & Hx & Hp & Hy); [lia|].
    exists x, o, el. rewrite <- HR, <- HD.
    rewrite Nat.sub_0_r in Hp. auto.
Qed.

(** A validated udp request whose slice is as long as the count, on a network
    whose read errors are all of type [*net.OpError], is run to the end. *)
Lemma Run_udp_total s s1 :
  ValidateParameters net s = (Ret None, s1) ->
  Protocol (Parameters (self s1)) = "udp"%string ->
  Count (Parameters (self s1)) <= Z.of_nat (length (Results (self s))) ->
  (forall k, is_panic (probe net k (Parameters (self s1))) = false) ->
  exists s', Run net s = (Ret None, s').
Proof.
  intros Hv Hu Hlen Hnp. rewrite Run_phases, Hv, Hu. cbn.
  pose proof (ValidateParameters_frame net s) as HF. rewrite Hv in HF. cbn in HF.
  destruct HF as (HR & _).
  destruct (for_loop_total net (Z.to_nat (Count (Parameters (self s1)))) 0 s1)
    as [s' Hs']; try lia; [now rewrite HR | exact Hnp |].
  rewrite Hs'. eauto.
Qed.

End WholeRun.

(** ** Classification of the attempts *)

Lemma stamped_Success p elapsed x : Success (stamped p elapsed x) = Success x.
Proof. reflexivity. Qed.

Lemma stamped_Error p elapsed x : Error (stamped p elapsed x) = Error x.
Proof. reflexivity. Qed.

(** An attempt whose read returned bytes leaves [Success] and [Error] of its
    entry as the caller supplied them: [Run] assigns neither on that path. *)
Lemma Run_response_entry net s s' (j : nat) (n : nat) :
  Run net s = (Ret None, s') ->
  Z.of_nat j < Count (Parameters (self s')) ->
  Dial net (dials (env s) + j) (dial_address (Parameters (self s'))) = None ->
  Read net (dials (env s) + j) (dial_address (Parameters (self s'))) = inl n ->
  exists x e,
    Results (self s) !! j = Some x /\
    Results (self s') !! j = Some e /\
    Success e = Success x /\ Error e = Error x.
Proof.
  intros HR Hj HD HRd.
  apply Run_udp_entries in HR as (_ & _ & _ & _ & _ & _ & _ & HJ).
  destruct (HJ j Hj) as (x & o & el & Hx & Hp & He).
  rewrite probe_cases, HD, HRd in Hp. inversion Hp; subst o.
  exists x, (stamped (Parameters (self s')) el x). auto.
Qed.

(** C1 (the code departs from it): an attempt that receives response bytes
    should be recorded with success=true and no error.  On a run built the way
    [main] builds it, with one attempt whose read returns 4 bytes, the entry
    comes back with [Success = false]: [Run] has no assignment on the path
    where [pingUdp] returns nil, so the zero value of the slot stays. *)
Theorem response_entry_success_stays_false :
  Read sample_net 0 "localhost:9" = inl 4%nat /\
  fst (main sample_net "localhost" 9 1 1) =
    Ret [ {| Success := false; Error := ""; res_Destination := "localhost";
             res_DestinationPort := 9; res_Protocol := "udp"; RTT := 2000 |} ].
Proof. split; vm_compute; reflexivity. Qed.

(** C2: an attempt whose read fails by deadline expiry (a [*net.OpError]
    whose [Timeout()] is true) leaves an entry with success=false and error
    exactly "timeout": so for one turn of the loop at an index in range, and
    so for every index of a run that returns nil. *)
Theorem timeout_entry net :
  (forall i s text,
     in_range i s = true ->
     Dial net (dials (env s)) (dial_address (Parameters (self s))) = None ->
     Read net (dials (env s)) (dial_address (Parameters (self s)))
       = inr (OpError true text) ->
     exists s' e,
       attempt net i s = (Ret tt, s') /\
       Results (self s') !! Z.to_nat i = Some e /\
       Success e = false /\ Error e = "timeout"%string) /\
  (forall s s' (j : nat) text,
     Run net s = (Ret None, s') ->
     Z.of_nat j < Count (Parameters (self s')) ->
     Dial net (dials (env s) + j) (dial_address (Parameters (self s'))) = None ->
     Read net (dials (env s) + j) (dial_address (Parameters (self s')))
       = inr (OpError true text) ->
     exists e,
       Results (self s') !! j = Some e /\
       Success e = false /\ Error e = "timeout"%string).
Proof.
  split.
  - intros i s text Hin HD HRd.
    destruct (attempt_entry net i s (Some (Errorf E_Timeout [])) Hin)
      as (s' & x & el & Ha & _ & He).
    { now rewrite probe_cases, HD, HRd. }
    do 2 eexists. split; [exact Ha|]. split; [exact He|]. split; reflexivity.
  - intros s s' j text HR Hj HD HRd.
    apply Run_udp_entries in HR as (_ & _ & _ & _ & _ & _ & _ & HJ).
    destruct (HJ j Hj) as (x & o & el & Hx & Hp & He).
    rewrite probe_cases, HD, HRd in Hp. inversion Hp; subst o.
    eexists. split; [exact He|]. split; reflexivity.
Qed.

Lemma timeout_entry_witness :
  exists e,
    Results (self (snd (Run sample_net (sample_state "localhost" "udp" 9 4))))
      !! 1%nat = Some e /\
    Success e = false /\ Error e = "timeout"%string.
Proof.
  apply (proj2 (timeout_entry sample_net)
           (sample_state "localhost" "udp" 9 4)
           (snd (Run sample_net (sample_state "localhost" "udp" 9 4)))
           1%nat "read udp: i/o timeout").
  - vm_compute; reflexivity.
  - vm_compute; reflexivity.
  - vm_compute; reflexivity.
  - vm_compute; reflexivity.
Defined.

(** C3: an attempt whose read fails with a connection-refused signal (a
    [*net.OpError] that is not a timeout and whose text contains "connection
    refused") leaves an entry with success=true and error exactly
    "connection refused (no response)": so for one turn of the loop at an
    index in range, and so for every index of a run that returns nil. *)
Theorem refused_entry net :
  (forall i s text,
     in_range i s = true ->
     Dial net (dials (env s)) (dial_address (Parameters (self s))) = None ->
     Read net (dials (env s)) (dial_address (Parameters (self s)))
       = inr (OpError false text) ->
     Contains text "connection refused" = true ->
     exists s' e,
       attempt net i s = (Ret tt, s') /\
       Results (self s') !! Z.to_nat i = Some e /\
       Success e = true /\
       Error e = "connection refused (no response)"%string) /\
  (forall s s' (j : nat) text,
     Run net s = (Ret None, s') ->
     Z.of_nat j < Count (Parameters (self s')) ->
     Dial net (dials (env s) + j) (dial_address (Parameters (self s'))) = None ->
     Read net (dials (env s) + j) (dial_address (Parameters (self s')))
       = inr (OpError false text) ->
     Contains text "connection refused" = true ->
     exists e,
       Results (self s') !! j = Some e /\
       Success e = true /\
       Error e = "connection refused (no response)"%string).
Proof.
  split.
  - intros i s text Hin HD HRd HC.
    destruct (attempt_entry net i s (Some (Errorf E_ConnRefused [])) Hin)
      as (s' & x & el & Ha & _ & He).
    { now rewrite probe_cases, HD, HRd, HC. }
    do 2 eexists. split; [exact Ha|]. split; [exact He|]. split; reflexivity.
  - intros s s' j text HR Hj HD HRd HC.
    apply Run_udp_entries in HR as (_ & _ & _ & _ & _ & _ & _ & HJ).
    destruct (HJ j Hj) as (x & o & el & Hx & Hp & He).
    rewrite probe_cases, HD, HRd, HC in Hp. inversion Hp; subst o.
    eexists. split; [exact He|]. split; reflexivity.
Qed.

Lemma refused_entry_witness :
  exists e,
    Results (self (snd (Run sample_net (sample_state "localhost" "udp" 9 4))))
      !! 2%nat = Some e /\
    Success e = true /\
    Error e = "connection refused (no response)"%string.
Proof.
  apply (proj2 (refused_entry sample_net)
           (sample_state "localhost" "udp" 9 4)
           (snd (Run sample_net (sample_state "localhost" "udp" 9 4)))
           2%nat "read udp: read: connection refused").
  - vm_compute; reflexivity.
  - vm_compute; reflexivity.
  - vm_compute; reflexivity.
  - vm_compute; reflexivity.
  - vm_compute; reflexivity.
Defined.

(** ** The number of attempts and the result slice *)

(** A run that returns nil made exactly as many attempts as the validated
    count (none when the count is negative), one dial each and in order, and
    left the slice as long as the caller made it. *)
Lemma Run_udp_attempts net s s' :
  Run net s = (Ret None, s') ->
  dials (env s') =
    (dials (env s) + Z.to_nat (Count (Parameters (self s'))))%nat /\
  length (Results (self s')) = length (Results (self s)).
Proof.
  intros H. pose proof (Run_udp_entries net s s' H) as (_ & _ & _ & _ & HL & _).
  split; [|exact HL].
  apply Run_nil in H as (s1 & Hv & Hu & Hl).
  pose proof (ValidateParameters_frame net s) as HF. rewrite Hv in HF. cbn in HF.
  destruct HF as (_ & HD & _).
  apply for_loop_ret in Hl; [|lia].
  destruct Hl as (HP & _ & _ & HD' & _).
  rewrite HD', HD, HP, Z.sub_0_r. reflexivity.
Qed.

Lemma no_foreign_read_no_panic net :
  (forall k a text, Read net k a <> inr (OtherError text)) ->
  forall k p, is_panic (probe net k p) = false.
Proof.
  intros H k p. rewrite probe_cases.
  destruct (Dial net k _); [reflexivity|].
  destruct (Read net k _) as [n|[[|] tx|tx]] eqn:HR; try reflexivity.
  - destruct (Contains tx _); reflexivity.
  - now apply H in HR.
Qed.





(** ** The address dialed *)

(** Every dial of a run that returns nil goes to the caller's [Destination]
    joined with the port; [ipDest] is not read. *)
Lemma Run_dials_Destination net s s' :
  Run net s = (Ret None, s') ->
  dialed (trace (env s')) =
    dialed (trace (env s))
    ++ replicate (Z.to_nat (Count (Parameters (self s'))))
         (Destination (Parameters (self s)) +:+ ":"
          +:+ itoa (DestinationPort (Parameters (self s)))).
Proof.
  intros H.
  apply Run_udp_entries in H as (_ & Hd & Hp & _ & _ & _ & HT & _).
  rewrite HT. unfold dial_address. rewrite Hd, Hp. cbn.
  now rewrite append_empty_r.
Qed.

(** C5 (the code departs from it): the socket should be opened toward the
    resolved address joined with the port.  For the host name [localhost],
    which validation resolves to 127.0.0.1 and stores in [ipDest], both
    attempts of a run dial "localhost:9", the caller's string. *)
Theorem dial_ignores_resolved_address :
  fst (Run sample_net (sample_state "localhost" "udp" 9 2)) = Ret None /\
  ipDest (Parameters (self (snd (Run sample_net
                                   (sample_state "localhost" "udp" 9 2)))))
    = "127.0.0.1"%string /\
  dialed (trace (env (snd (Run sample_net
                             (sample_state "localhost" "udp" 9 2)))))
    = ["localhost:9"%string; "localhost:9"%string] /\
  "localhost:9"%string <> "127.0.0.1:9"%string.
Proof. repeat split; try (vm_compute; reflexivity). discriminate. Qed.

(** ** Validation: the port, the address *)

Lemma port_error_text p :
  Error_text (port_error p) =
    Protocol p
    +:+ " ping requires a valid destination port between 0 and 65535, got "
    +:+ itoa (DestinationPort p).
Proof.
  change (Protocol p
          +:+ " ping requires a valid destination port between 0 and 65535, got "
          +:+ (itoa (DestinationPort p) +:+ "")
          = Protocol p
          +:+ " ping requires a valid destination port between 0 and 65535, got "
          +:+ itoa (DestinationPort p)).
  now rewrite append_empty_r.
Qed.

Lemma invalid_ip_error_text ip :
  Error_text (invalid_ip_error ip) = "destination IP is invalid: " +:+ ip.
Proof.
  change ("destination IP is invalid: " +:+ (ip +:+ "")
          = "destination IP is invalid: " +:+ ip).
  now rewrite append_empty_r.
Qed.

(** C6: for a protocol other than "icmp", validation returns the error that
    names the protocol and the port exactly when the port is outside
    [0, 65535]; port 0 does not raise it. *)
Theorem port_check_iff net s :
  Protocol (Parameters (self s)) <> "icmp"%string ->
  (fst (ValidateParameters net s)
     = Ret (Some (port_error (Parameters (self s))))
   <-> DestinationPort (Parameters (self s)) < 0
       \/ 65535 < DestinationPort (Parameters (self s))) /\
  (DestinationPort (Parameters (self s)) = 0 ->
   fst (ValidateParameters net s)
     <> Ret (Some (port_error (Parameters (self s))))) /\
  Error_text (port_error (Parameters (self s))) =
    Protocol (Parameters (self s))
    +:+ " ping requires a valid destination port between 0 and 65535, got "
    +:+ itoa (DestinationPort (Parameters (self s))).
Proof.
  intros Hproto.
  assert (Hiff :
    fst (ValidateParameters net s)
      = Ret (Some (port_error (Parameters (self s))))
    <-> DestinationPort (Parameters (self s)) < 0
        \/ 65535 < DestinationPort (Parameters (self s))).
  { rewrite ValidateParameters_spec. cbn.
    destruct (port_ok (Parameters (self s))) eqn:Hok.
    - apply port_ok_iff in Hok as [Hi|Hr]; [contradiction|].
      split; [|lia].
      destruct (LookupHost net _) as [[|ip0 ips]|e]; cbn;
        [discriminate| |];
        destruct (ParseIP net _); cbn; discriminate.
    - split; [|reflexivity]. intros _.
      destruct (Z.lt_ge_cases (DestinationPort (Parameters (self s))) 0);
        [now left|].
      destruct (Z.lt_ge_cases 65535 (DestinationPort (Parameters (self s))));
        [now right|].
      assert (port_ok (Parameters (self s)) = true)
        by (apply port_ok_iff; right; lia).
      congruence. }
  split; [exact Hiff|]. split; [|apply port_error_text].
  intros H0 Hbad. apply Hiff in Hbad. lia.
Qed.

Lemma port_check_iff_witness :
  (fst (ValidateParameters sample_net (sample_state "localhost" "udp" 70000 3))
     = Ret (Some (port_error (sample_params "localhost" "udp" 70000 3)))
   <-> 70000 < 0 \/ 65535 < 70000) /\
  (70000 = 0 ->
   fst (ValidateParameters sample_net (sample_state "localhost" "udp" 70000 3))
     <> Ret (Some (port_error (sample_params "localhost" "udp" 70000 3)))) /\
  Error_text (port_error (sample_params "localhost" "udp" 70000 3)) =
    "udp ping requires a valid destination port between 0 and 65535, got 70000"%string.
Proof.
  apply (port_check_iff sample_net (sample_state "localhost" "udp" 70000 3)).
  vm_compute. discriminate.
Defined.

(** C7: once the port check is passed, the first address of a successful
    lookup is the candidate; the destination itself is the candidate when the
    lookup fails; a lookup that succeeds with no address is an error; and a
    candidate that does not parse is an error that carries it.  A candidate
    that parses is stored in [ipDest]. *)
Theorem resolution_candidate net s :
  port_ok (Parameters (self s)) = true ->
  (forall ip0 ips,
     LookupHost net (Destination (Parameters (self s))) = inl (ip0 :: ips) ->
     (ParseIP net ip0 = true ->
      fst (ValidateParameters net s) = Ret None /\
      ipDest (Parameters (self (snd (ValidateParameters net s)))) = ip0) /\
     (ParseIP net ip0 = false ->
      fst (ValidateParameters net s) = Ret (Some (invalid_ip_error ip0)))) /\
  (forall e,
     LookupHost net (Destination (Parameters (self s))) = inr e ->
     (ParseIP net (Destination (Parameters (self s))) = true ->
      ipDest (Parameters (self (snd (ValidateParameters net s))))
        = Destination (Parameters (self s))) /\
     (ParseIP net (Destination (Parameters (self s))) = false ->
      fst (ValidateParameters net s)
        = Ret (Some (invalid_ip_error (Destination (Parameters (self s))))))) /\
  (LookupHost net (Destination (Parameters (self s))) = inl [] ->
   fst (ValidateParameters net s) = Ret (Some no_ip_error) /\
   Error_text no_ip_error = "FQDN does not resolve to any known ip"%string) /\
  (forall ip,
     Error_text (invalid_ip_error ip) = "destination IP is invalid: " +:+ ip).
Proof.
  intros Hok. rewrite ValidateParameters_spec. cbn. rewrite Hok.
  assert (Hip : forall q, ipDest (defaulted q) = ipDest q).
  { intros q. unfold defaulted.
    destruct (Timeout q =? 0); cbn; destruct (Count q =? 0); reflexivity. }
  split; [|split; [|split]].
  - intros ip0 ips Hl. rewrite Hl. split; intros Hp; rewrite Hp; cbn.
    + split; [reflexivity | apply Hip].
    + reflexivity.
  - intros e Hl. rewrite Hl. split; intros Hp; rewrite Hp; cbn.
    + apply Hip.
    + reflexivity.
  - intros Hl. rewrite Hl. split; reflexivity.
  - apply invalid_ip_error_text.
Qed.

Lemma resolution_candidate_witness :
  fst (ValidateParameters sample_net (sample_state "localhost" "udp" 9 3))
    = Ret None /\
  ipDest (Parameters (self (snd (ValidateParameters sample_net
                                   (sample_state "localhost" "udp" 9 3)))))
    = "127.0.0.1"%string.
Proof.
  refine (proj1 (proj1 (resolution_candidate sample_net
                          (sample_state "localhost" "udp" 9 3) _)
                   "127.0.0.1"%string [] _) _);
    vm_compute; reflexivity.
Defined.

(** ** Protocols other than udp *)

(** C8: a validated request whose protocol is not "udp" makes [Run] return
    the error "protocol ... is not supported"; no result entry is written and
    nothing is dialed. *)
Theorem unsupported_protocol_no_attempt net s s1 :
  ValidateParameters net s = (Ret None, s1) ->
  Protocol (Parameters (self s)) <> "udp"%string ->
  Run net s = (Ret (Some (unsupported (Parameters (self s)))), s1) /\
  Error_text (unsupported (Parameters (self s))) =
    "protocol " +:+ Protocol (Parameters (self s)) +:+ " is not supported" /\
  Results (self s1) = Results (self s) /\
  dials (env s1) = dials (env s) /\
  dialed (trace (env s1)) = dialed (trace (env s)).
Proof.
  intros Hv Hne.
  pose proof (ValidateParameters_frame net s) as HF. rewrite Hv in HF. cbn in HF.
  destruct HF as (HR & HD & HT & _ & _ & HP).
  split; [|split; [reflexivity | auto]].
  rewrite Run_phases, Hv, HP.
  destruct (String.eqb_spec (Protocol (Parameters (self s))) "udp");
    [contradiction|].
  unfold unsupported. now rewrite HP.
Qed.

Lemma unsupported_protocol_no_attempt_witness :
  Run sample_net (sample_state "localhost" "tcp" 80 3) =
    (Ret (Some (unsupported (sample_params "localhost" "tcp" 80 3))),
     snd (ValidateParameters sample_net (sample_state "localhost" "tcp" 80 3))) /\
  Error_text (unsupported (sample_params "localhost" "tcp" 80 3)) =
    "protocol tcp is not supported"%string /\
  Results (self (snd (ValidateParameters sample_net
                        (sample_state "localhost" "tcp" 80 3))))
    = replicate 3 zero_result /\
  dials (env (snd (ValidateParameters sample_net
                     (sample_state "localhost" "tcp" 80 3)))) = 0%nat /\
  dialed (trace (env (snd (ValidateParameters sample_net
                             (sample_state "localhost" "tcp" 80 3))))) = [].
Proof.
  apply (unsupported_protocol_no_attempt sample_net
           (sample_state "localhost" "tcp" 80 3)
           (snd (ValidateParameters sample_net
                   (sample_state "localhost" "tcp" 80 3)))).
  - vm_compute; reflexivity.
  - vm_compute. discriminate.
Defined.

(** ** The length of the caller's slice *)

(** C9: the writes [r.Results[i]] stay in range only when the caller's slice
    is at least as long as the count that validation leaves: a run returns
    nil only then, and then no write is out of range.  A slice sized from a
    raw count of 0 is empty while validation sets the count to 3, and [Run]
    panics with an index out of range at the first entry, the slice still
    empty (the first probe itself returning, that is, its read error, if
    any, being a [*net.OpError]). *)
Theorem short_slice_index_panic net s :
  (forall s',
     Run net s = (Ret None, s') ->
     Count (Parameters (self s')) <= Z.of_nat (length (Results (self s)))) /\
  (forall s1 i n,
     ValidateParameters net s = (Ret None, s1) ->
     Count (Parameters (self s1)) <= Z.of_nat (length (Results (self s))) ->
     fst (Run net s) <> Panic (IndexOutOfRange i n)) /\
  (forall s1,
     ValidateParameters net s = (Ret None, s1) ->
     Protocol (Parameters (self s)) = "udp"%string ->
     Count (Parameters (self s)) = 0 ->
     Results (self s) =
       replicate (Z.to_nat (Count (Parameters (self s)))) zero_result ->
     is_panic (probe net (dials (env s)) (Parameters (self s1))) = false ->
     Count (Parameters (self s1)) = 3 /\
     fst (Run net s) = Panic (IndexOutOfRange 0 0) /\
     Results (self (snd (Run net s))) = []).
Proof.
  split; [|split].
  - intros s' H. now apply Run_udp_entries in H as (_ & _ & _ & _ & _ & H & _).
  - intros s1 i n Hv Hlen.
    pose proof (ValidateParameters_frame net s) as HF.
    rewrite Hv in HF. cbn in HF. destruct HF as (HR & _).
    rewrite Run_phases, Hv.
    destruct (String.eqb _ _); [|cbn; discriminate].
    pose proof (for_loop_in_bounds net
                  (Z.to_nat (Count (Parameters (self s1)))) 0 s1 i n) as Hb.
    destruct (for_loop net _ 0 s1) as [[[]|q|] s2]; cbn in Hb |- *;
      try discriminate.
    intros Hq. inversion Hq; subst q.
    apply Hb; [lia | now rewrite HR | reflexivity].
  - intros s1 Hv Hu H0 Hres Hnp.
    pose proof (ValidateParameters_frame net s) as HF.
    rewrite Hv in HF. cbn in HF. destruct HF as (HR & HD & _ & _ & _ & HP).
    pose proof Hv as Hv'.
    apply ValidateParameters_nil in Hv' as (ip0 & ips & _ & _ & _ & Hs1).
    assert (HC : Count (Parameters (self s1)) = 3).
    { rewrite Hs1. cbn. rewrite defaulted_Count. cbn. now rewrite H0. }
    split; [exact HC|].
    rewrite H0 in Hres. cbn in Hres.
    rewrite Run_phases, Hv, HP, Hu, HC. cbn -[for_loop].
    change (Z.to_nat 3) with 3%nat. rewrite for_loop_S, HC. cbn -[for_loop attempt].
    unfold bind.
    destruct (probe net (dials (env s)) (Parameters (self s1))) as [o|q|] eqn:Hpr;
      [|discriminate | now apply probe_not_starved in Hpr].
    assert (Hin : in_range 0 s1 = false).
    { unfold in_range. now rewrite HR, Hres. }
    rewrite <- HD in Hpr.
    destruct (attempt_out_of_range net 0 s1 o Hin Hpr) as (w1 & Ha).
    rewrite Ha, HR, Hres. cbn. split; [reflexivity | now rewrite HR].
Qed.

Lemma short_slice_index_panic_witness :
  Count (Parameters (self (snd (ValidateParameters sample_net
                                  (sample_state "localhost" "udp" 9 0))))) = 3 /\
  fst (Run sample_net (sample_state "localhost" "udp" 9 0))
    = Panic (IndexOutOfRange 0 0) /\
  Results (self (snd (Run sample_net (sample_state "localhost" "udp" 9 0))))
    = [].
Proof.
  apply (proj2 (proj2 (short_slice_index_panic sample_net
                         (sample_state "localhost" "udp" 9 0)))
           (snd (ValidateParameters sample_net
                   (sample_state "localhost" "udp" 9 0))));
    vm_compute; reflexivity.
Defined.

(** ** Negative counts and timeouts *)

(** C10: whether validation fails does not depend on the count or the
    timeout; the defaults replace a value of exactly zero and nothing else,
    so negative values come out unchanged; and with a negative count a udp
    run returns nil at once: the state is the one validation left, no entry
    written, nothing dialed. *)
Theorem negative_count_timeout_pass net s :
  (forall c t,
     fst (ValidateParameters net
            (with_params (set_Count c (set_Timeout t (Parameters (self s)))) s))
     = fst (ValidateParameters net s)) /\
  (forall s1,
     ValidateParameters net s = (Ret None, s1) ->
     (Count (Parameters (self s)) <> 0 ->
      Count (Parameters (self s1)) = Count (Parameters (self s))) /\
     (Timeout (Parameters (self s)) <> 0 ->
      Timeout (Parameters (self s1)) = Timeout (Parameters (self s))) /\
     (Count (Parameters (self s)) < 0 ->
      Count (Parameters (self s1)) = Count (Parameters (self s))) /\
     (Timeout (Parameters (self s)) < 0 ->
      Timeout (Parameters (self s1)) = Timeout (Parameters (self s))) /\
     (Count (Parameters (self s)) < 0 ->
      Protocol (Parameters (self s)) = "udp"%string ->
      Run net s = (Ret None, s1) /\
      Results (self s1) = Results (self s) /\
      dials (env s1) = dials (env s) /\
      dialed (trace (env s1)) = dialed (trace (env s)))).
Proof.
  split.
  - intros c t. rewrite !ValidateParameters_spec.
    destruct s as [[p rs] w]. cbn.
    change (port_ok (set_Count c (set_Timeout t p))) with (port_ok p).
    destruct (port_ok p); [|reflexivity].
    destruct (LookupHost net (Destination p)) as [[|ip0 ips]|e]; cbn;
      [reflexivity| |]; destruct (ParseIP net _); reflexivity.
  - intros s1 Hv.
    pose proof (ValidateParameters_frame net s) as HF.
    rewrite Hv in HF. cbn in HF. destruct HF as (HR & HD & HT & _ & _ & HP).
    pose proof Hv as Hv'.
    apply ValidateParameters_nil in Hv' as (ip0 & ips & _ & _ & _ & Hs1).
    assert (HC : Count (Parameters (self s)) <> 0 ->
                 Count (Parameters (self s1)) = Count (Parameters (self s))).
    { intros Hne. rewrite Hs1. cbn. rewrite defaulted_Count. cbn.
      destruct (Z.eqb_spec (Count (Parameters (self s))) 0); congruence. }
    assert (HTm : Timeout (Parameters (self s)) <> 0 ->
                  Timeout (Parameters (self s1)) = Timeout (Parameters (self s))).
    { intros Hne. rewrite Hs1. cbn. rewrite defaulted_Timeout. cbn.
      destruct (Z.eqb_spec (Timeout (Parameters (self s))) 0); congruence. }
    split; [exact HC|]. split; [exact HTm|].
    split; [intros; apply HC; lia|]. split; [intros; apply HTm; lia|].
    intros Hneg Hu. split; [|auto].
    rewrite Run_phases, Hv, HP, Hu. cbn -[for_loop].
    rewrite HC by lia.
    replace (Z.to_nat (Count (Parameters (self s)))) with 0%nat by lia.
    rewrite for_loop_O, HC by lia.
    destruct (Z.ltb_spec 0 (Count (Parameters (self s)))); [lia | reflexivity].
Qed.

(** [main] itself does not get that far with a negative count: [make]
    panics on the negative length. *)
Lemma main_negative_count net ip port timeout count :
  count < 0 ->
  fst (main net ip port timeout count) = Panic (MakeSliceLen count).
Proof.
  intros H. unfold main, main_body, bind, make_results.
  destruct (Z.ltb_spec count 0); [reflexivity | lia].
Qed.

Lemma negative_count_timeout_pass_witness :
  Run sample_net
      {| self := {| Parameters := set_Timeout (-1)
                      (sample_params "localhost" "udp" 9 (-2));
                    Results := [] |};
         env := world0 |}
  = (Ret None,
     {| self := {| Parameters :=
                     {| Destination := "localhost"; DestinationPort := 9;
                        Protocol := "udp"; Count := -2; Timeout := -1;
                        ipDest := "127.0.0.1" |};
                   Results := [] |};
        env := {| dials := 0; ticks := 0;
                  trace := [EvLookupHost "localhost"] |} |}).
Proof.
  refine (proj1 (proj2 (proj2 (proj2 (proj2
            (proj2 (negative_count_timeout_pass sample_net
                      {| self := {| Parameters := set_Timeout (-1)
                                      (sample_params "localhost" "udp" 9 (-2));
                                    Results := [] |};
                         env := world0 |}) _ _)))) _ _));
    vm_compute; reflexivity.
Defined.

(** * Further properties of the code *)

(** ** The command line on sample inputs *)

Example LastIndex_samples :
  LastIndex "localhost:9" ":" = 9 /\
  LastIndex "::1:53" ":" = 3 /\
  LastIndex "localhost" ":" = -1 /\
  LastIndex ":9" ":" = 0 /\
  LastIndex "abc" "" = 3.
Proof. repeat split; reflexivity. Qed.

Example ParseInt_samples :
  ParseInt "9" = (9, None) /\
  ParseInt "+0065" = (65, None) /\
  ParseInt "-9223372036854775808" = (-9223372036854775808, None) /\
  ParseInt "9223372036854775808"
    = (9223372036854775807,
       Some {| Num := "9223372036854775808"; Err := ErrRange |}) /\
  ParseInt "99999999999999999999x"
    = (9223372036854775807,
       Some {| Num := "99999999999999999999x"; Err := ErrRange |}) /\
  ParseInt "" = (0, Some {| Num := ""; Err := ErrSyntax |}) /\
  ParseInt "-" = (0, Some {| Num := "-"; Err := ErrSyntax |}) /\
  ParseInt "8o" = (0, Some {| Num := "8o"; Err := ErrSyntax |}).
Proof. repeat split; reflexivity. Qed.

Example main_args_samples :
  main_args sample_net "localhost" 1 2 = InvalidAddress /\
  main_args sample_net ":9" 1 2 = InvalidAddress /\
  main_args sample_net "localhost:" 1 2
    = PortPanic {| Num := ""; Err := ErrSyntax |} /\
  main_args sample_net "localhost:9" 1 2 = Ran (main sample_net "localhost" 9 1 2).
Proof. repeat split; reflexivity. Qed.

(** ** Turns in detail *)

Section Turns.

Variable net : network.

(** [pingUdp] with its effects spelled out. *)
Lemma pingUdp_exact s :
  pingUdp net s =
    (probe net (dials (env s)) (Parameters (self s)),
     {| self := self s;
        env := {| dials := S (dials (env s));
                  ticks := match Dial net (dials (env s))
                                   (dial_address (Parameters (self s))) with
                           | None => S (ticks (env s))
                           | Some _ => ticks (env s)
                           end;
                  trace := trace (env s)
                           ++ ping_events net (dials (env s))
                                (Parameters (self s))
                                (Now net (ticks (env s))) |} |}).
Proof.
  destruct s as [[p rs] [k t tr]].
  unfold probe, pingUdp, ping_events, dial_address, bind, get_params,
    net_Dial, ret, emit; cbn.
  destruct (Dial net k _) as [e|]; cbn.
  - now rewrite <- !app_assoc.
  - unfold defer, bind, emit, time_Now, ret; cbn.
    destruct (Read net k _) as [n|[tm tx|tx]]; cbn.
    + now rewrite <- !app_assoc.
    + unfold read_error, ret.
      destruct tm; [|destruct (Contains tx _)]; cbn;
        now rewrite <- !app_assoc.
    + now rewrite <- !app_assoc.
Qed.

Local Opaque pingUdp.

Lemma attempt_exact_in_range i s o :
  in_range i s = true ->
  probe net (dials (env s)) (Parameters (self s)) = Ret o ->
  attempt net i s =
    (Ret tt,
     {| self := {| Parameters := Parameters (self s);
                   Results :=
                     alter (fun x =>
                              stamped (Parameters (self s))
                                (Sub (Now net (ticks (turn_world net i s)))
                                     (Now net (ticks (env s))))
                                (recorded o x))
                           (Z.to_nat i) (Results (self s)) |};
        env := {| dials := dials (turn_world net i s);
                  ticks := S (ticks (turn_world net i s));
                  trace := trace (turn_world net i s) |} |}).
Proof.
  intros Hin Hpr. destruct s as [[p l] [k t tr]].
  unfold attempt, turn_world, bind, time_Now, get_params, emit, ret; cbn.
  rewrite pingUdp_exact; cbn in *. rewrite Hpr.
  assert (Hin1 : forall w, in_range i {| self := {| Parameters := p; Results := l |}; env := w |} = true)
    by (intros; exact Hin).
  fold (banner i p). rewrite <- !app_assoc. cbn.
  destruct o as [e|].
  - rewrite record_error_in_range by apply Hin1. cbn.
    repeat (rewrite update_result_in_range
              by (cbn; rewrite ?in_range_alter; apply Hin1); cbn).
    rewrite !list_alter_alter_eq.
    destruct (Dial net k (dial_address p)); reflexivity.
  - repeat (rewrite update_result_in_range
              by (cbn; rewrite ?in_range_alter; apply Hin1); cbn).
    rewrite !list_alter_alter_eq.
    destruct (Dial net k (dial_address p)); reflexivity.
Qed.

(** Whatever way a turn ends, it dialed once, left the parameters and the
    length of the slice alone, and its events are the banner and those of
    [pingUdp]. *)
Lemma attempt_effects i s :
  dials (env (snd (attempt net i s))) = S (dials (env s)) /\
  trace (env (snd (attempt net i s))) = trace (turn_world net i s) /\
  Parameters (self (snd (attempt net i s))) = Parameters (self s) /\
  length (Results (self (snd (attempt net i s)))) = length (Results (self s)) /\
  (ticks (env s) < ticks (env (snd (attempt net i s))))%nat.
Proof.
  destruct (probe net (dials (env s)) (Parameters (self s))) as [o|q|] eqn:Hpr.
  - destruct (in_range i s) eqn:Hin.
    + rewrite (attempt_exact_in_range i s o Hin Hpr). cbn.
      rewrite length_alter. repeat split.
      destruct (Dial net _ _); lia.
    + destruct s as [[p l] [k t tr]].
      unfold attempt, turn_world, bind, time_Now, get_params, emit, ret; cbn.
      rewrite pingUdp_exact; cbn in *. rewrite Hpr.
      assert (Hin1 : forall w, in_range i {| self := {| Parameters := p; Results := l |}; env := w |} = false)
        by (intros; exact Hin).
      fold (banner i p). rewrite <- !app_assoc. cbn.
      destruct o as [e|].
      * rewrite record_error_out_of_range by apply Hin1. cbn.
        repeat split. destruct (Dial net _ _); lia.
      * rewrite update_result_out_of_range by apply Hin1. cbn.
        repeat split. destruct (Dial net _ _); lia.
  - destruct s as [[p l] [k t tr]].
    unfold attempt, turn_world, bind, time_Now, get_params, emit, ret; cbn.
    rewrite pingUdp_exact; cbn in *. rewrite Hpr.
    fold (banner i p). rewrite <- !app_assoc. cbn.
    repeat split. destruct (Dial net _ _); lia.
  - now apply probe_not_starved in Hpr.
Qed.

(** What holds before the loop and is kept by every turn holds after the
    loop, however it ends. *)
Lemma for_loop_preserves (I : state -> Prop) :
  (forall i s, I s -> I (snd (attempt net i s))) ->
  forall fuel i s, I s -> I (snd (for_loop net fuel i s)).
Proof.
  intros Hstep. induction fuel as [|fuel IH]; intros i s Hs.
  - rewrite for_loop_O. destruct (i <? _); exact Hs.
  - rewrite for_loop_S. destruct (i <? _); [|exact Hs].
    unfold bind. specialize (Hstep i s Hs).
    destruct (attempt net i s) as [[[]|q|] s1]; cbn in Hstep |- *;
      [now apply IH | exact Hstep | exact Hstep].
Qed.

(** The same for the whole run, validation included. *)
Lemma Run_preserves (I : state -> Prop) :
  (forall s, I s -> I (snd (ValidateParameters net s))) ->
  (forall i s, I s -> I (snd (attempt net i s))) ->
  forall s, I s -> I (snd (Run net s)).
Proof.
  intros Hval Hstep s Hs. rewrite Run_phases.
  specialize (Hval s Hs).
  destruct (ValidateParameters net s) as [[[e|]|q|] s1]; cbn in Hval |- *;
    try exact Hval.
  destruct (String.eqb _ _); [|exact Hval].
  pose proof (for_loop_preserves I Hstep
                (Z.to_nat (Count (Parameters (self s1)))) 0 s1 Hval) as Hl.
  destruct (for_loop net _ 0 s1) as [[[]|q|] s2]; exact Hl.
Qed.

End Turns.

(** ** Runs that complete *)

(** A udp request that validation accepts, with a slice at least as long as
    the validated count, on a network whose read errors are all of type
    [*net.OpError], is run to the end: [Run] returns nil after exactly as
    many dials as the count, all to the same address, with the parameters
    validation left and the slice as long as before. *)
Theorem udp_run_completes net s s1 :
  ValidateParameters net s = (Ret None, s1) ->
  Protocol (Parameters (self s)) = "udp"%string ->
  Count (Parameters (self s1)) <= Z.of_nat (length (Results (self s))) ->
  (forall k a text, Read net k a <> inr (OtherError text)) ->
  exists s',
    Run net s = (Ret None, s') /\
    Parameters (self s') = Parameters (self s1) /\
    length (Results (self s')) = length (Results (self s)) /\
    dials (env s') =
      (dials (env s) + Z.to_nat (Count (Parameters (self s1))))%nat /\
    dialed (trace (env s')) =
      dialed (trace (env s))
      ++ replicate (Z.to_nat (Count (Parameters (self s1))))
                   (dial_address (Parameters (self s1))).
Proof.
  intros Hv Hu Hlen Hrd.
  pose proof (ValidateParameters_frame net s) as HF. rewrite Hv in HF. cbn in HF.
  destruct HF as (_ & _ & _ & _ & _ & HP).
  destruct (Run_udp_total net s s1 Hv) as [s' HR];
    [congruence | exact Hlen | intros; now apply no_foreign_read_no_panic |].
  exists s'. split; [exact HR|].
  pose proof (Run_udp_attempts net s s' HR) as (Hd & Hl).
  pose proof (Run_udp_entries net s s' HR) as (_ & _ & _ & _ & _ & _ & Ht & _).
  apply Run_nil in HR as (s1' & Hv' & _ & Hloop).
  rewrite Hv in Hv'. inversion Hv'; subst s1'.
  apply for_loop_ret in Hloop as (HPar & _); [|lia].
  rewrite <- HPar. auto.
Qed.

Lemma udp_run_completes_witness :
  exists s',
    Run sample_net (sample_state "localhost" "udp" 9 4) = (Ret None, s') /\
    Parameters (self s') =
      Parameters (self (snd (ValidateParameters sample_net
                               (sample_state "localhost" "udp" 9 4)))) /\
    length (Results (self s')) = 4%nat /\
    dials (env s') = 4%nat /\
    dialed (trace (env s')) = replicate 4 "localhost:9"%string.
Proof.
  apply (udp_run_completes sample_net (sample_state "localhost" "udp" 9 4)
           (snd (ValidateParameters sample_net
                   (sample_state "localhost" "udp" 9 4)))).
  - vm_compute; reflexivity.
  - vm_compute; reflexivity.
  - vm_compute. discriminate.
  - intros k a text. cbn.
    destruct k as [|[|[|k]]]; discriminate.
Defined.

(** ** What an entry records *)

Lemma recorded_Error e x : Error (recorded (Some e) x) = Error_text e.
Proof.
  unfold recorded.
  destruct (String.eqb_spec (Error_text e) E_Timeout) as [->|_];
    [reflexivity|].
  destruct (String.eqb_spec (Error_text e) E_ConnRefused) as [->|_];
    reflexivity.
Qed.

Lemma recorded_Success e x :
  Success (recorded (Some e) x) = String.eqb (Error_text e) E_ConnRefused.
Proof.
  unfold recorded.
  destruct (String.eqb_spec (Error_text e) E_Timeout) as [->|_];
    [reflexivity|].
  destruct (String.eqb (Error_text e) E_ConnRefused); reflexivity.
Qed.

(** Whatever error [pingUdp] returns for an attempt, the entry of that
    attempt carries the text of the error, and its success flag is set
    exactly when that text is "connection refused (no response)". *)
Theorem error_text_recorded net s s' (j : nat) (e : error) :
  Run net s = (Ret None, s') ->
  Z.of_nat j < Count (Parameters (self s')) ->
  probe net (dials (env s) + j) (Parameters (self s')) = Ret (Some e) ->
  exists r,
    Results (self s') !! j = Some r /\
    Error r = Error_text e /\
    Success r = String.eqb (Error_text e) "connection refused (no response)".
Proof.
  intros HR Hj Hp.
  apply Run_udp_entries in HR as (_ & _ & _ & _ & _ & _ & _ & HJ).
  destruct (HJ j Hj) as (x & o & el & Hx & Hp' & He).
  rewrite Hp in Hp'. inversion Hp'; subst o.
  eexists. split; [exact He|].
  rewrite stamped_Error, stamped_Success, recorded_Error, recorded_Success.
  split; reflexivity.
Qed.

Lemma error_text_recorded_witness :
  exists r,
    Results (self (snd (Run sample_net (sample_state "localhost" "udp" 9 4))))
      !! 3%nat = Some r /\
    Error r = "read Error: read udp: read: network is unreachable"%string /\
    Success r = false.
Proof.
  apply (error_text_recorded sample_net (sample_state "localhost" "udp" 9 4)
           (snd (Run sample_net (sample_state "localhost" "udp" 9 4))) 3%nat
           (Errorf "read Error: %v"
                   [OpStr "read udp: read: network is unreachable"])).
  - vm_compute; reflexivity.
  - vm_compute; reflexivity.
  - vm_compute; reflexivity.
Defined.

Lemma read_error_text text :
  Error_text (Errorf "read Error: %v" [OpStr text]) = "read Error: " +:+ text.
Proof.
  change ("read Error: " +:+ (text +:+ "") = "read Error: " +:+ text).
  now rewrite append_empty_r.
Qed.

(** A read that fails with a [*net.OpError] that is neither a timeout nor a
    refusal is recorded as a failure whose error is "read Error: " followed
    by the text of the error. *)
Theorem other_read_error_entry net s s' (j : nat) (text : string) :
  Run net s = (Ret None, s') ->
  Z.of_nat j < Count (Parameters (self s')) ->
  Dial net (dials (env s) + j) (dial_address (Parameters (self s'))) = None ->
  Read net (dials (env s) + j) (dial_address (Parameters (self s')))
    = inr (OpError false text) ->
  Contains text "connection refused" = false ->
  exists r,
    Results (self s') !! j = Some r /\
    Success r = false /\
    Error r = "read Error: " +:+ text.
Proof.
  intros HR Hj HD HRd HC.
  apply Run_udp_entries in HR as (_ & _ & _ & _ & _ & _ & _ & HJ).
  destruct (HJ j Hj) as (x & o & el & Hx & Hp & He).
  rewrite probe_cases, HD, HRd, HC in Hp. inversion Hp; subst o.
  eexists. split; [exact He|].
  rewrite stamped_Error, stamped_Success, recorded_Error, recorded_Success.
  rewrite read_error_text. split; reflexivity.
Qed.

Lemma other_read_error_entry_witness :
  exists r,
    Results (self (snd (Run sample_net (sample_state "localhost" "udp" 9 4))))
      !! 3%nat = Some r /\
    Success r = false /\
    Error r = "read Error: read udp: read: network is unreachable"%string.
Proof.
  apply (other_read_error_entry sample_net (sample_state "localhost" "udp" 9 4)
           (snd (Run sample_net (sample_state "localhost" "udp" 9 4))) 3%nat
           "read udp: read: network is unreachable").
  - vm_compute; reflexivity.
  - vm_compute; reflexivity.
  - vm_compute; reflexivity.
  - vm_compute; reflexivity.
  - vm_compute; reflexivity.
Defined.

(** ** Dials that fail *)

(** When [net.Dial] fails, [pingUdp] logs the error and returns it as it
    is: nothing is written, read or closed.  The run goes on: the entry of
    the attempt carries the text of the dial error, with the success flag
    set only for the text "connection refused (no response)". *)
Theorem dial_failure_entry net :
  (forall s e,
     Dial net (dials (env s)) (dial_address (Parameters (self s))) = Some e ->
     fst (pingUdp net s) = Ret (Some (NetError e)) /\
     self (snd (pingUdp net s)) = self s /\
     trace (env (snd (pingUdp net s))) =
       trace (env s)
       ++ [EvDial "udp" (dial_address (Parameters (self s)));
           EvLog (Error_text (NetError e))]) /\
  (forall s s' (j : nat) e,
     Run net s = (Ret None, s') ->
     Z.of_nat j < Count (Parameters (self s')) ->
     Dial net (dials (env s) + j) (dial_address (Parameters (self s')))
       = Some e ->
     exists r,
       Results (self s') !! j = Some r /\
       Error r = Error_text (NetError e) /\
       Success r = String.eqb (Error_text (NetError e))
                              "connection refused (no response)").
Proof.
  split.
  - intros s e HD. rewrite pingUdp_exact. cbn.
    rewrite probe_cases. unfold ping_events. rewrite HD. auto.
  - intros s s' j e HR Hj HD.
    apply Run_udp_entries in HR as (_ & _ & _ & _ & _ & _ & _ & HJ).
    destruct (HJ j Hj) as (x & o & el & Hx & Hp & He).
    rewrite probe_cases, HD in Hp. inversion Hp; subst o.
    eexists. split; [exact He|].
    rewrite stamped_Error, stamped_Success, recorded_Error, recorded_Success.
    split; reflexivity.
Qed.

Lemma dial_failure_entry_witness :
  exists r,
    Results (self (snd (Run sample_net_down
                          (sample_state "localhost" "udp" 9 2))))
      !! 1%nat = Some r /\
    Error r = "dial udp: network is unreachable"%string /\
    Success r = false.
Proof.
  apply (proj2 (dial_failure_entry sample_net_down)
           (sample_state "localhost" "udp" 9 2)
           (snd (Run sample_net_down (sample_state "localhost" "udp" 9 2)))
           1%nat (OpError false "dial udp: network is unreachable")).
  - vm_compute; reflexivity.
  - vm_compute; reflexivity.
  - vm_compute; reflexivity.
Defined.

(** ** The slice after a run *)

(** Every entry that a completed run wrote echoes the request: the caller's
    destination string, the port, and the protocol "udp". *)
Theorem entries_echo_request net s s' (j : nat) :
  Run net s = (Ret None, s') ->
  Z.of_nat j < Count (Parameters (self s')) ->
  exists r,
    Results (self s') !! j = Some r /\
    res_Destination r = Destination (Parameters (self s)) /\
    res_DestinationPort r = DestinationPort (Parameters (self s)) /\
    res_Protocol r = "udp"%string.
Proof.
  intros HR Hj.
  apply Run_udp_entries in HR as (Hu & Hd & Hp & _ & _ & _ & _ & HJ).
  destruct (HJ j Hj) as (x & o & el & Hx & _ & He).
  eexists. split; [exact He|]. cbn. auto.
Qed.

Lemma entries_echo_request_witness :
  exists r,
    Results (self (snd (Run sample_net (sample_state "localhost" "udp" 9 4))))
      !! 0%nat = Some r /\
    res_Destination r = "localhost"%string /\
    res_DestinationPort r = 9 /\
    res_Protocol r = "udp"%string.
Proof.
  apply (entries_echo_request sample_net (sample_state "localhost" "udp" 9 4)
           (snd (Run sample_net (sample_state "localhost" "udp" 9 4))) 0%nat).
  - vm_compute; reflexivity.
  - vm_compute; reflexivity.
Defined.

(** A completed run writes the entries below the validated count and no
    other: an entry at or beyond the count is what the caller supplied. *)
Theorem entries_beyond_count_untouched net s s' (j : nat) :
  Run net s = (Ret None, s') ->
  Count (Parameters (self s')) <= Z.of_nat j ->
  Results (self s') !! j = Results (self s) !! j.
Proof.
  intros HR Hj.
  apply Run_nil in HR as (s1 & Hv & _ & Hloop).
  pose proof (ValidateParameters_frame net s) as HF. rewrite Hv in HF. cbn in HF.
  destruct HF as (HRs & _).
  apply for_loop_ret in Hloop as (HP & _ & _ & _ & _ & HJ); [|lia].
  destruct (HJ j) as [_ HJ2]. rewrite HJ2, HRs; [reflexivity|].
  rewrite <- HP. lia.
Qed.

Lemma entries_beyond_count_untouched_witness :
  Results (self (snd (Run sample_net
     {| self := {| Parameters := sample_params "localhost" "udp" 9 1;
                   Results := [zero_result; set_Error "kept" zero_result] |};
        env := world0 |}))) !! 1%nat
  = Some (set_Error "kept" zero_result).
Proof.
  apply (entries_beyond_count_untouched sample_net
     {| self := {| Parameters := sample_params "localhost" "udp" 9 1;
                   Results := [zero_result; set_Error "kept" zero_result] |};
        env := world0 |}
     (snd (Run sample_net
       {| self := {| Parameters := sample_params "localhost" "udp" 9 1;
                     Results := [zero_result; set_Error "kept" zero_result] |};
          env := world0 |})) 1%nat).
  - vm_compute; reflexivity.
  - vm_compute. discriminate.
Defined.

(** ** What validation guarantees *)

(** When [ValidateParameters] returns nil, the lookup of the destination
    succeeded and its first address, which parses, is in [ipDest]; the count
    and the timeout are not zero, an unset one having become 3 or 5; the port
    is within [0, 65535] unless the protocol is "icmp"; and the destination,
    the port, the protocol and the slice are as the caller gave them. *)
Theorem validation_postconditions net s s1 :
  ValidateParameters net s = (Ret None, s1) ->
  (exists ips,
     LookupHost net (Destination (Parameters (self s)))
       = inl (ipDest (Parameters (self s1)) :: ips)) /\
  ParseIP net (ipDest (Parameters (self s1))) = true /\
  Count (Parameters (self s1)) <> 0 /\
  Timeout (Parameters (self s1)) <> 0 /\
  (Count (Parameters (self s)) = 0 -> Count (Parameters (self s1)) = 3) /\
  (Timeout (Parameters (self s)) = 0 -> Timeout (Parameters (self s1)) = 5) /\
  (Protocol (Parameters (self s1)) = "icmp"%string
   \/ 0 <= DestinationPort (Parameters (self s1)) <= 65535) /\
  Destination (Parameters (self s1)) = Destination (Parameters (self s)) /\
  DestinationPort (Parameters (self s1)) = DestinationPort (Parameters (self s)) /\
  Protocol (Parameters (self s1)) = Protocol (Parameters (self s)) /\
  Results (self s1) = Results (self s).
Proof.
  intros Hv.
  pose proof (ValidateParameters_frame net s) as HF. rewrite Hv in HF. cbn in HF.
  destruct HF as (HR & _ & _ & Hd & Hp & Hpr).
  apply ValidateParameters_nil in Hv as (ip0 & ips & Hok & Hl & Hparse & ->).
  cbn. rewrite defaulted_Count, defaulted_Timeout. cbn.
  assert (Hip : ipDest (defaulted (set_ipDest ip0 (Parameters (self s)))) = ip0).
  { unfold defaulted. cbn.
    destruct (Timeout _ =? 0); cbn; destruct (Count _ =? 0); reflexivity. }
  rewrite Hip. cbn in Hd, Hp, Hpr.
  split; [eauto|]. split; [exact Hparse|].
  split; [destruct (Z.eqb_spec (Count (Parameters (self s))) 0); lia|].
  split; [destruct (Z.eqb_spec (Timeout (Parameters (self s))) 0); lia|].
  split; [intros ->; reflexivity|]. split; [intros ->; reflexivity|].
  split; [|auto].
  rewrite Hpr, Hp. now apply port_ok_iff.
Qed.

Lemma validation_postconditions_witness :
  (exists ips,
     LookupHost sample_net "localhost" = inl ("127.0.0.1"%string :: ips)) /\
  ParseIP sample_net "127.0.0.1" = true /\
  3 <> 0 /\ 5 <> 0 /\ (0 = 0 -> 3 = 3) /\ (0 = 0 -> 5 = 5) /\
  ("udp"%string = "icmp"%string \/ 0 <= 9 <= 65535) /\
  "localhost"%string = "localhost"%string /\ 9 = 9 /\
  "udp"%string = "udp"%string /\
  @nil result = [].
Proof.
  apply (validation_postconditions sample_net
     {| self := {| Parameters := mk_params "localhost" 9 "udp" 0 0 "";
                   Results := [] |};
        env := world0 |}
     (snd (ValidateParameters sample_net
        {| self := {| Parameters := mk_params "localhost" 9 "udp" 0 0 "";
                      Results := [] |};
           env := world0 |}))).
  vm_compute; reflexivity.
Defined.

Lemma defaulted_settled ip' q :
  defaulted (set_ipDest ip' (defaulted q)) = set_ipDest ip' (defaulted q).
Proof.
  destruct q as [d po pr c t i]. unfold defaulted, set_ipDest; cbn.
  destruct (t =? 0) eqn:Et; cbn; destruct (c =? 0) eqn:Ec; cbn;
    rewrite ?Et, ?Ec; cbn; rewrite ?Et, ?Ec; reflexivity.
Qed.

(** Validating again a request that was accepted, on the network as it is
    then ([net'], whose resolver may answer otherwise than before): if the
    first address it now gives parses, validation returns nil again and
    changes nothing of the request but [ipDest], which becomes that address;
    so the request is left exactly as it was if and only if the resolver
    gives the same first address as before. *)
Theorem revalidation_changes_only_ipDest net net' s s1 ip' ips' :
  ValidateParameters net s = (Ret None, s1) ->
  LookupHost net' (Destination (Parameters (self s))) = inl (ip' :: ips') ->
  ParseIP net' ip' = true ->
  exists s2,
    ValidateParameters net' s1 = (Ret None, s2) /\
    Parameters (self s2) = set_ipDest ip' (Parameters (self s1)) /\
    Results (self s2) = Results (self s1) /\
    (self s2 = self s1 <-> ip' = ipDest (Parameters (self s1))).
Proof.
  intros Hv Hl' Hparse'.
  apply ValidateParameters_nil in Hv as (ip0 & ips & Hok & _ & _ & ->).
  rewrite ValidateParameters_spec. cbn.
  assert (Hsame : forall q,
            Destination (defaulted (set_ipDest ip0 q)) = Destination q /\
            port_ok (defaulted (set_ipDest ip0 q)) = port_ok q).
  { intros q. unfold defaulted, port_ok.
    destruct (Timeout _ =? 0); cbn; destruct (Count _ =? 0); cbn; auto. }
  destruct (Hsame (Parameters (self s))) as [Hd Hp].
  rewrite Hp, Hok, Hd, Hl', Hparse'.
  eexists. split; [reflexivity|]. unfold with_params. cbn.
  rewrite defaulted_settled.
  split; [reflexivity|]. split; [reflexivity|].
  split.
  - intros H. apply (f_equal Parameters) in H. cbn in H.
    apply (f_equal ipDest) in H. cbn in H. exact H.
  - intros ->. f_equal.
    now destruct (defaulted (set_ipDest ip0 (Parameters (self s)))).
Qed.

Lemma revalidation_changes_only_ipDest_witness :
  exists s2,
    ValidateParameters
      (sample_net_answering ["127.0.0.2"%string; "127.0.0.1"%string])
      (snd (ValidateParameters
              (sample_net_answering ["127.0.0.1"%string; "127.0.0.2"%string])
              (sample_state "localhost" "udp" 9 0)))
    = (Ret None, s2) /\
    Parameters (self s2)
    = set_ipDest "127.0.0.2"
        (Parameters (self (snd (ValidateParameters
           (sample_net_answering ["127.0.0.1"%string; "127.0.0.2"%string])
           (sample_state "localhost" "udp" 9 0))))) /\
    Results (self s2)
    = Results (self (snd (ValidateParameters
        (sample_net_answering ["127.0.0.1"%string; "127.0.0.2"%string])
        (sample_state "localhost" "udp" 9 0)))) /\
    (self s2
     = self (snd (ValidateParameters
         (sample_net_answering ["127.0.0.1"%string; "127.0.0.2"%string])
         (sample_state "localhost" "udp" 9 0)))
     <-> "127.0.0.2"%string
         = ipDest (Parameters (self (snd (ValidateParameters
             (sample_net_answering ["127.0.0.1"%string; "127.0.0.2"%string])
             (sample_state "localhost" "udp" 9 0)))))).
Proof.
  apply (revalidation_changes_only_ipDest
           (sample_net_answering ["127.0.0.1"%string; "127.0.0.2"%string])
           (sample_net_answering ["127.0.0.2"%string; "127.0.0.1"%string])
           (sample_state "localhost" "udp" 9 0)
           (snd (ValidateParameters
                   (sample_net_answering ["127.0.0.1"%string; "127.0.0.2"%string])
                   (sample_state "localhost" "udp" 9 0)))
           "127.0.0.2" ["127.0.0.1"%string]).
  - vm_compute; reflexivity.
  - vm_compute; reflexivity.
  - vm_compute; reflexivity.
Defined.

(** When validation returns an error, [Run] returns that error and stops
    where validation stopped: no entry is written and nothing is dialed. *)
Theorem validation_failure_aborts net s e :
  fst (ValidateParameters net s) = Ret (Some e) ->
  Run net s = ValidateParameters net s /\
  fst (Run net s) = Ret (Some e) /\
  Results (self (snd (Run net s))) = Results (self s) /\
  dials (env (snd (Run net s))) = dials (env s) /\
  dialed (trace (env (snd (Run net s)))) = dialed (trace (env s)).
Proof.
  intros Hv.
  pose proof (ValidateParameters_frame net s) as (HR & HD & HT & _).
  assert (HRun : Run net s = ValidateParameters net s).
  { rewrite Run_phases.
    destruct (ValidateParameters net s) as [[[e'|]|q|] s1]; cbn in Hv;
      try discriminate; reflexivity. }
  rewrite HRun. auto.
Qed.

Lemma validation_failure_aborts_witness :
  Run sample_net (sample_state "empty.example" "udp" 9 3)
    = ValidateParameters sample_net (sample_state "empty.example" "udp" 9 3) /\
  fst (Run sample_net (sample_state "empty.example" "udp" 9 3))
    = Ret (Some no_ip_error) /\
  Results (self (snd (Run sample_net (sample_state "empty.example" "udp" 9 3))))
    = replicate 3 zero_result /\
  dials (env (snd (Run sample_net (sample_state "empty.example" "udp" 9 3))))
    = 0%nat /\
  dialed (trace (env (snd (Run sample_net
                             (sample_state "empty.example" "udp" 9 3))))) = [].
Proof.
  apply (validation_failure_aborts sample_net
           (sample_state "empty.example" "udp" 9 3) no_ip_error).
  vm_compute; reflexivity.
Defined.

(** For the protocol "icmp" the port is not looked at: what validation
    returns is the same for every port. *)
Theorem icmp_port_unchecked net s port :
  Protocol (Parameters (self s)) = "icmp"%string ->
  fst (ValidateParameters net
         (with_params (set_DestinationPort port (Parameters (self s))) s))
  = fst (ValidateParameters net s).
Proof.
  intros Hi. rewrite !ValidateParameters_spec.
  destruct s as [[p rs] w]. cbn in *.
  assert (Hok : forall q, Protocol q = "icmp"%string -> port_ok q = true).
  { intros q Hq. apply port_ok_iff. now left. }
  rewrite !Hok by assumption.
  destruct (LookupHost net (Destination p)) as [[|ip0 ips]|e]; cbn;
    [reflexivity| |]; destruct (ParseIP net _); reflexivity.
Qed.

Lemma icmp_port_unchecked_witness :
  fst (ValidateParameters sample_net
         (with_params (set_DestinationPort 70000
                         (sample_params "localhost" "icmp" 0 3))
                      (sample_state "localhost" "icmp" 0 3)))
  = fst (ValidateParameters sample_net (sample_state "localhost" "icmp" 0 3)).
Proof.
  apply (icmp_port_unchecked sample_net (sample_state "localhost" "icmp" 0 3)
           70000).
  vm_compute; reflexivity.
Defined.

(** ** What [main] returns *)

Lemma main_from_Run net ip port timeout count :
  0 <= count ->
  main net ip port timeout count =
    match Run net (main_state ip port timeout count) with
    | (Ret None, s') => (Ret (Results (self s')), s')
    | (Ret (Some e), s') => (Panic (PanicError e), s')
    | (Panic q, s') => (Panic q, s')
    | (Starved, s') => (Starved, s')
    end.
Proof.
  intros Hc. unfold main, main_body, bind, make_results, main_state, ret.
  destruct (Z.ltb_spec count 0); [lia|]. cbn.
  destruct (Run net _) as [[[e|]|q|] s']; reflexivity.
Qed.

(** When [main] gets to print, the count was positive and it prints exactly
    that many entries, each with the host of the command line, the port and
    the protocol "udp". *)
Theorem main_returns_count_entries net ip port timeout count rs :
  fst (main net ip port timeout count) = Ret rs ->
  0 < count /\
  length rs = Z.to_nat count /\
  forall (j : nat) r,
    rs !! j = Some r ->
    res_Destination r = ip /\ res_DestinationPort r = port /\
    res_Protocol r = "udp"%string.
Proof.
  intros H.
  destruct (Z.lt_ge_cases count 0) as [Hneg|Hpos].
  { rewrite main_negative_count in H by exact Hneg. discriminate. }
  rewrite main_from_Run in H by exact Hpos.
  destruct (Run net (main_state ip port timeout count))
    as [[[e|]|q|] s'] eqn:HR; cbn in H; try discriminate.
  inversion H; subst rs.
  pose proof (Run_udp_entries net _ _ HR) as (Hu & Hd & Hp & HC & HL & Hle & _ & HJ).
  cbn in Hd, Hp, HC, HL, Hle. rewrite length_replicate in HL, Hle.
  assert (Hcount : 0 < count /\ Count (Parameters (self s')) = count).
  { destruct (Z.eqb_spec count 0); lia. }
  destruct Hcount as [H0 HCe].
  split; [exact H0|]. split; [exact HL|].
  intros j r Hr.
  assert (Hj : Z.of_nat j < Count (Parameters (self s'))).
  { apply lookup_lt_Some in Hr. lia. }
  destruct (HJ j Hj) as (x & o & el & _ & _ & He).
  rewrite He in Hr. inversion Hr; subst r. cbn. auto.
Qed.

Lemma main_returns_count_entries_witness :
  0 < 2 /\
  length (Results (self (snd (main sample_net "localhost" 9 1 2))))
    = Z.to_nat 2 /\
  forall (j : nat) r,
    Results (self (snd (main sample_net "localhost" 9 1 2))) !! j = Some r ->
    res_Destination r = "localhost"%string /\ res_DestinationPort r = 9 /\
    res_Protocol r = "udp"%string.
Proof.
  apply (main_returns_count_entries sample_net "localhost" 9 1 2).
  vm_compute; reflexivity.
Defined.

(** With a positive count, a port within [0, 65535], a host whose lookup
    gives a first address that parses, and read errors that are all of type
    [*net.OpError], [main] does get to print: it returns count entries after
    count dials. *)
Theorem main_completes net ip port timeout count ip0 ips :
  0 < count ->
  0 <= port <= 65535 ->
  LookupHost net ip = inl (ip0 :: ips) ->
  ParseIP net ip0 = true ->
  (forall k a text, Read net k a <> inr (OtherError text)) ->
  exists rs st,
    main net ip port timeout count = (Ret rs, st) /\
    length rs = Z.to_nat count /\
    dials (env st) = Z.to_nat count.
Proof.
  intros Hc Hport Hl Hparse Hrd.
  rewrite main_from_Run by lia.
  pose proof (ValidateParameters_spec net (main_state ip port timeout count)) as Hv.
  cbn in Hv. rewrite Hl, Hparse in Hv.
  assert (Hok : port_ok (mk_params ip port "udp" count timeout "") = true).
  { apply port_ok_iff. now right. }
  rewrite Hok in Hv.
  match type of Hv with _ = (Ret None, ?s1) => set (s1v := s1) in * end.
  assert (HC : Count (Parameters (self s1v)) = count).
  { subst s1v. cbn. rewrite defaulted_Count. cbn.
    destruct (Z.eqb_spec count 0); lia. }
  destruct (Run_udp_total net _ s1v Hv) as [s' HR].
  - subst s1v. cbn. unfold defaulted. cbn.
    destruct (timeout =? 0); cbn; destruct (count =? 0); reflexivity.
  - rewrite HC. cbn. rewrite length_replicate. lia.
  - intros. now apply no_foreign_read_no_panic.
  - rewrite HR. exists (Results (self s')), s'. split; [reflexivity|].
    pose proof (Run_udp_attempts net _ _ HR) as (Hd & HL).
    pose proof (Run_udp_entries net _ _ HR) as (_ & _ & _ & HC' & _).
    cbn in Hd, HL, HC'. rewrite length_replicate in HL.
    split; [exact HL|]. rewrite Hd.
    destruct (Z.eqb_spec count 0); [lia|]. now rewrite HC'.
Qed.

Lemma main_completes_witness :
  exists rs st,
    main sample_net "localhost" 9 1 3 = (Ret rs, st) /\
    length rs = Z.to_nat 3 /\
    dials (env st) = Z.to_nat 3.
Proof.
  apply (main_completes sample_net "localhost" 9 1 3 "127.0.0.1" []).
  - lia.
  - lia.
  - reflexivity.
  - reflexivity.
  - intros k a text. cbn. destruct k as [|[|[|k]]]; discriminate.
Defined.

(** ** The round-trip time *)

Section Timing.

Variable net : network.

Lemma for_loop_rtt fuel : forall i s s',
  0 <= i ->
  for_loop net fuel i s = (Ret tt, s') ->
  forall j : nat,
    i <= Z.of_nat j < Count (Parameters (self s)) ->
    exists r a b,
      Results (self s') !! j = Some r /\
      (ticks (env s) <= a < b)%nat /\
      RTT r = Sub (Now net b) (Now net a).
Proof.
  induction fuel as [|fuel IH]; intros i s s' Hi H j Hj.
  - rewrite for_loop_O in H.
    destruct (Z.ltb_spec i (Count (Parameters (self s))));
      [discriminate | lia].
  - rewrite for_loop_S in H.
    destruct (Z.ltb_spec i (Count (Parameters (self s)))); [|lia].
    unfold bind in H.
    destruct (probe net (dials (env s)) (Parameters (self s))) as [o|q|] eqn:Hpr.
    + destruct (in_range i s) eqn:Hin.
      * rewrite (attempt_exact_in_range net i s o Hin Hpr) in H.
        destruct (in_range_lookup i s Hin) as [x Hx].
        assert (Ht : (ticks (env s) < ticks (turn_world net i s))%nat).
        { unfold turn_world. cbn. destruct (Dial net _ _); lia. }
        destruct (decide (j = Z.to_nat i)) as [->|Hne].
        -- apply for_loop_ret in H as (_ & _ & _ & _ & _ & HJ); [|lia].
           destruct (HJ (Z.to_nat i)) as [_ HJ2]. cbn in HJ2.
           rewrite HJ2 by lia. rewrite list_lookup_alter_eq, Hx.
           eexists _, (ticks (env s)), (ticks (turn_world net i s)).
           split; [reflexivity|]. split; [lia | reflexivity].
        -- assert (Hi1 : 0 <= i + 1) by lia.
           destruct (IH _ _ _ Hi1 H j) as (r & a & b & Hr & Hab & HRTT);
             [cbn; lia|].
           exists r, a, b. split; [exact Hr|].
           split; [|exact HRTT].
           change (S (ticks (turn_world net i s)) <= a < b)%nat in Hab. lia.
      * destruct (attempt_out_of_range net i s o Hin Hpr) as (w1 & Ha).
        rewrite Ha in H. discriminate.
    + destruct (attempt_probe_panic net i s q Hpr) as (w1 & Ha).
      rewrite Ha in H. discriminate.
    + now apply probe_not_starved in Hpr.
Qed.

End Timing.

Lemma Sub_bounds t u : - 2 ^ 63 <= Sub t u <= 2 ^ 63 - 1.
Proof. unfold Sub. lia. Qed.

(** The round-trip time of every entry that a completed run wrote is the
    difference of two clock readings, the later minus the earlier, kept
    within the range of a [time.Duration]; with a clock that never goes back
    it is not negative. *)
Theorem rtt_of_two_readings net s s' (j : nat) :
  Run net s = (Ret None, s') ->
  Z.of_nat j < Count (Parameters (self s')) ->
  exists r a b,
    Results (self s') !! j = Some r /\
    (a < b)%nat /\
    RTT r = Sub (Now net b) (Now net a) /\
    - 2 ^ 63 <= RTT r <= 2 ^ 63 - 1 /\
    (monotone_clock net -> 0 <= RTT r).
Proof.
  intros HR Hj.
  apply Run_nil in HR as (s1 & Hv & _ & Hloop).
  pose proof Hloop as Hloop'.
  apply for_loop_ret in Hloop' as (HP & _); [|lia].
  destruct (for_loop_rtt net _ 0 s1 s' (Z.le_refl 0) Hloop j) as
    (r & a & b & Hr & Hab & HRTT); [rewrite <- HP; lia|].
  exists r, a, b. split; [exact Hr|]. split; [lia|]. split; [exact HRTT|].
  rewrite HRTT. split; [apply Sub_bounds|].
  intros Hm. specialize (Hm a b ltac:(lia)). unfold Sub. lia.
Qed.

Lemma rtt_of_two_readings_witness :
  exists r a b,
    Results (self (snd (Run sample_net (sample_state "localhost" "udp" 9 4))))
      !! 2%nat = Some r /\
    (a < b)%nat /\
    RTT r = Sub (Now sample_net b) (Now sample_net a) /\
    - 2 ^ 63 <= RTT r <= 2 ^ 63 - 1 /\
    (monotone_clock sample_net -> 0 <= RTT r).
Proof.
  apply (rtt_of_two_readings sample_net (sample_state "localhost" "udp" 9 4)
           (snd (Run sample_net (sample_state "localhost" "udp" 9 4))) 2%nat).
  - vm_compute; reflexivity.
  - vm_compute; reflexivity.
Defined.

(** ** Sockets *)

Lemma socket_run_app st t1 t2 :
  socket_run st (t1 ++ t2) =
    match socket_run st t1 with
    | Some st' => socket_run st' t2
    | None => None
    end.
Proof.
  revert st. induction t1 as [|e t1 IH]; intros st; cbn; [reflexivity|].
  destruct (socket_step st e); [apply IH | reflexivity].
Qed.

Lemma ping_events_sockets net k p now :
  socket_run Closed (ping_events net k p now) = Some Closed.
Proof.
  unfold ping_events.
  destruct (Dial net k _); [reflexivity|].
  destruct (Read net k _); reflexivity.
Qed.

(** However a run ends, by a return or by a panic, it leaves no socket in
    use: every socket was closed before the next dial, and nothing was read
    from or set on a socket that was not in use. *)
Theorem sockets_closed_after_run net :
  (forall s,
     socket_run Closed (trace (env s)) = Some Closed ->
     socket_run Closed (trace (env (snd (Run net s)))) = Some Closed) /\
  (forall ip port timeout count,
     socket_run Closed (trace (env (snd (main net ip port timeout count))))
     = Some Closed).
Proof.
  assert (HRun : forall s,
    socket_run Closed (trace (env s)) = Some Closed ->
    socket_run Closed (trace (env (snd (Run net s)))) = Some Closed).
  { apply (Run_preserves net
             (fun s => socket_run Closed (trace (env s)) = Some Closed)).
    - intros s Hs. rewrite ValidateParameters_spec. cbn.
      assert (Hl : socket_run Closed (trace (env (looked_up s))) = Some Closed).
      { unfold looked_up. cbn. now rewrite socket_run_app, Hs. }
      destruct (port_ok _); [|exact Hs].
      destruct (LookupHost net _) as [[|ip0 ips]|e]; [exact Hl| |];
        destruct (ParseIP net _); exact Hl.
    - intros i s Hs.
      destruct (attempt_effects net i s) as (_ & Ht & _). rewrite Ht.
      unfold turn_world. cbn. rewrite socket_run_app, Hs. cbn.
      apply ping_events_sockets. }
  split; [exact HRun|].
  intros ip port timeout count.
  destruct (Z.lt_ge_cases count 0) as [Hneg|Hpos].
  - unfold main, main_body, bind, make_results.
    destruct (Z.ltb_spec count 0); [reflexivity | lia].
  - rewrite main_from_Run by exact Hpos.
    specialize (HRun (main_state ip port timeout count) eq_refl).
    destruct (Run net _) as [[[e|]|q|] s']; exact HRun.
Qed.

Lemma sockets_closed_after_run_witness :
  socket_run Closed
    (trace (env (snd (Run sample_net (sample_state "localhost" "udp" 9 0)))))
  = Some Closed.
Proof.
  apply (proj1 (sockets_closed_after_run sample_net)
           (sample_state "localhost" "udp" 9 0)).
  reflexivity.
Defined.

(** ** The read deadline *)

Lemma wrap64_fixed z : wrap64 z = z <-> - 2 ^ 63 <= z < 2 ^ 63.
Proof.
  unfold wrap64. split.
  - intros H. pose proof (Z.mod_pos_bound (z + 2 ^ 63) (2 ^ 64) ltac:(lia)). lia.
  - intros H. rewrite Z.mod_small; lia.
Qed.

(** On a socket that was opened, the deadline is set from the clock reading
    taken then and a duration of [Timeout] seconds; the duration is exactly
    [Timeout] times 10^9 nanoseconds if and only if the timeout is within
    9223372036 seconds either way, and wraps around otherwise. *)
Theorem deadline_duration net s :
  Dial net (dials (env s)) (dial_address (Parameters (self s))) = None ->
  In (EvSetReadDeadline (Now net (ticks (env s)))
                        (seconds_duration (Timeout (Parameters (self s)))))
     (trace (env (snd (pingUdp net s)))) /\
  (seconds_duration (Timeout (Parameters (self s)))
     = Timeout (Parameters (self s)) * 1000000000
   <-> -9223372036 <= Timeout (Parameters (self s)) <= 9223372036).
Proof.
  intros HD. split.
  - rewrite pingUdp_exact. cbn. unfold ping_events. rewrite HD.
    apply in_or_app. right. cbn. auto.
  - unfold seconds_duration. rewrite wrap64_fixed. lia.
Qed.

Lemma deadline_duration_witness :
  In (EvSetReadDeadline 0 5000000000)
     (trace (env (snd (pingUdp sample_net
        {| self := {| Parameters := mk_params "localhost" 9 "udp" 3 5 "";
                      Results := [] |};
           env := world0 |})))) /\
  (seconds_duration 5 = 5 * 1000000000 <-> -9223372036 <= 5 <= 9223372036).
Proof.
  apply (deadline_duration sample_net
           {| self := {| Parameters := mk_params "localhost" 9 "udp" 3 5 "";
                         Results := [] |};
              env := world0 |}).
  reflexivity.
Defined.

(** ** Substrings *)

Lemma prefix_cons a sub b s :
  String.prefix (String a sub) (String b s) =
    if ascii_dec a b then String.prefix sub s else false.
Proof. reflexivity. Qed.

Lemma prefix_iff sub s :
  String.prefix sub s = true <-> exists post, s = sub +:+ post.
Proof.
  revert s. induction sub as [|a sub IH]; intros s.
  - destruct s; (split; [intros _; now eexists | reflexivity]).
  - destruct s as [|b s]; [split; [discriminate | intros [? ?]; discriminate]|].
    rewrite prefix_cons. destruct (ascii_dec a b) as [->|Hne].
    + split.
      * intros H. apply IH in H as [post ->]. now exists post.
      * intros [post H].
        change (String b sub +:+ post) with (String b (sub +:+ post)) in H.
        inversion H. apply IH. eauto.
    + split; [discriminate|]. intros [post H].
      change (String a sub +:+ post) with (String a (sub +:+ post)) in H.
      inversion H. congruence.
Qed.

Lemma Contains_iff s sub :
  Contains s sub = true <-> exists pre post, s = pre +:+ sub +:+ post.
Proof.
  induction s as [|a s IH].
  - change (Contains EmptyString sub)
      with (String.prefix sub EmptyString || false).
    rewrite orb_false_r, prefix_iff. split.
    + intros [post H]. exists EmptyString, post. exact H.
    + intros (pre & post & H). destruct pre; [eauto | discriminate].
  - change (Contains (String a s) sub)
      with (String.prefix sub (String a s) || Contains s sub).
    rewrite orb_true_iff, prefix_iff, IH. split.
    + intros [[post H]|(pre & post & H)].
      * exists EmptyString, post. exact H.
      * exists (String a pre), post.
        change (String a s = String a (pre +:+ sub +:+ post)). now rewrite H.
    + intros (pre & post & H). destruct pre as [|b pre].
      * left. eauto.
      * right.
        change (String a s = String b (pre +:+ sub +:+ post)) in H.
        inversion H. eauto.
Qed.

(** A read that fails with a [*net.OpError] that is not a timeout is
    reported as a refusal exactly when "connection refused" occurs somewhere
    in the text of the error. *)
Theorem refusal_is_substring net k p text :
  Dial net k (dial_address p) = None ->
  Read net k (dial_address p) = inr (OpError false text) ->
  (probe net k p = Ret (Some (Errorf E_ConnRefused []))
   <-> exists pre post, text = pre +:+ "connection refused" +:+ post).
Proof.
  intros HD HR. rewrite probe_cases, HD, HR, <- Contains_iff.
  destruct (Contains text "connection refused"); split;
    try reflexivity; discriminate.
Qed.

Lemma refusal_is_substring_witness :
  probe sample_net 2 (sample_params "localhost" "udp" 9 4)
    = Ret (Some (Errorf E_ConnRefused []))
  <-> exists pre post,
        "read udp: read: connection refused"%string
        = pre +:+ "connection refused" +:+ post.
Proof.
  apply (refusal_is_substring sample_net 2
           (sample_params "localhost" "udp" 9 4)
           "read udp: read: connection refused");
    reflexivity.
Defined.

(** ** The argument of the command line *)

Lemma LastIndex_cons a s sub :
  LastIndex (String a s) sub =
    if 0 <=? LastIndex s sub then LastIndex s sub + 1
    else if String.prefix sub (String a s) then 0 else -1.
Proof. reflexivity. Qed.

Lemma LastIndex_ge s sub : -1 <= LastIndex s sub.
Proof.
  induction s as [|a s IH].
  - destruct sub; cbn; lia.
  - rewrite LastIndex_cons.
    destruct (Z.leb_spec 0 (LastIndex s sub)); [lia|].
    destruct (String.prefix sub (String a s)); lia.
Qed.

Lemma prefix_colon a s :
  String.prefix ":" (String a s) = true <-> a = ":"%char.
Proof.
  rewrite prefix_cons. destruct (ascii_dec ":" a) as [<-|Hne].
  - destruct s; tauto.
  - split; [discriminate | congruence].
Qed.

(** Where the last colon is, the string splits into what is before it and
    what is after it, and what is after it has no colon. *)
Lemma LastIndex_colon_split s :
  0 <= LastIndex s ":" ->
  s = slice_to (Z.to_nat (LastIndex s ":")) s
      +:+ ":" +:+ slice_from (S (Z.to_nat (LastIndex s ":"))) s /\
  LastIndex (slice_from (S (Z.to_nat (LastIndex s ":"))) s) ":" = -1 /\
  LastIndex s ":" < Z.of_nat (String.length s).
Proof.
  induction s as [|a s IH]; [cbn; lia|].
  rewrite LastIndex_cons.
  destruct (Z.leb_spec 0 (LastIndex s ":")) as [Hr|Hr].
  - intros _. destruct (IH Hr) as (Hs & Hp & Hl).
    replace (Z.to_nat (LastIndex s ":" + 1))
      with (S (Z.to_nat (LastIndex s ":"))) by lia.
    cbn [slice_to slice_from String.length].
    split; [|split; [exact Hp | lia]].
    change (String a s = String a (slice_to (Z.to_nat (LastIndex s ":")) s
                                   +:+ ":" +:+
                                   slice_from (S (Z.to_nat (LastIndex s ":"))) s)).
    now rewrite <- Hs.
  - pose proof (LastIndex_ge s ":") as Hge.
    destruct (String.prefix ":" (String a s)) eqn:Hpre; [|lia].
    intros _. apply prefix_colon in Hpre as ->.
    change (Z.to_nat 0) with 0%nat.
    cbn [slice_to slice_from String.length].
    split; [reflexivity|]. split; lia.
Qed.

Lemma LastIndex_app_colon pre post :
  0 <= LastIndex (pre +:+ ":" +:+ post) ":"
  /\ Z.of_nat (String.length pre) <= LastIndex (pre +:+ ":" +:+ post) ":"
  /\ (LastIndex post ":" = -1 ->
      LastIndex (pre +:+ ":" +:+ post) ":" = Z.of_nat (String.length pre)).
Proof.
  induction pre as [|a pre IH].
  - change (EmptyString +:+ ":" +:+ post) with (String ":" post).
    rewrite LastIndex_cons.
    pose proof (LastIndex_ge post ":").
    assert (Hp : String.prefix ":" (String ":" post) = true)
      by now apply prefix_colon.
    rewrite Hp. cbn [String.length].
    destruct (Z.leb_spec 0 (LastIndex post ":")); lia.
  - change (String a pre +:+ ":" +:+ post)
      with (String a (pre +:+ ":" +:+ post)).
    rewrite LastIndex_cons. destruct IH as (H0 & Hle & Heq).
    destruct (Z.leb_spec 0 (LastIndex (pre +:+ ":" +:+ post) ":")); [|lia].
    cbn [String.length]. split; [lia|]. split; [lia|].
    intros Hn. rewrite (Heq Hn). lia.
Qed.

Lemma slice_app pre rest :
  slice_to (String.length pre) (pre +:+ rest) = pre /\
  slice_from (String.length pre) (pre +:+ rest) = rest.
Proof.
  induction pre as [|a pre [IH1 IH2]]; cbn.
  - split; [now destruct rest | now destruct rest].
  - change (String a pre +:+ rest) with (String a (pre +:+ rest)).
    cbn. now rewrite IH1, IH2.
Qed.

(** [main] refuses the argument, logging "Invalid address", exactly when it
    has no colon after its first byte; it then returns without a lookup or
    a dial. *)
Theorem main_args_invalid net ipport timeout count :
  main_args net ipport timeout count = InvalidAddress
  <-> ~ exists pre post,
          pre <> EmptyString /\ ipport = pre +:+ ":" +:+ post.
Proof.
  unfold main_args.
  destruct (Z.gtb_spec (LastIndex ipport ":") 0) as [Hi|Hi].
  - split.
    + destruct (ParseInt _) as [port [err|]]; discriminate.
    + intros Hno. exfalso. apply Hno.
      destruct (LastIndex_colon_split ipport ltac:(lia)) as (Hs & _ & _).
      exists (slice_to (Z.to_nat (LastIndex ipport ":")) ipport),
             (slice_from (S (Z.to_nat (LastIndex ipport ":"))) ipport).
      split; [|exact Hs].
      destruct ipport as [|a rest]; [cbn in Hi; lia|].
      destruct (Z.to_nat (LastIndex (String a rest) ":")) eqn:Hn; [lia|].
      discriminate.
  - split; [|reflexivity]. intros _ (pre & post & Hne & ->).
    destruct (LastIndex_app_colon pre post) as (_ & Hle & _).
    destruct pre; [contradiction|]. cbn [String.length] in Hle. lia.
Qed.

(** ** The port of the command line *)

Lemma ParseUint_loop_step c s n d :
  digit_value c = Some d ->
  0 <= n -> 0 <= d -> n * 10 + d <= maxUint64 ->
  ParseUint_loop (String c s) n = ParseUint_loop s (n * 10 + d).
Proof.
  intros Hc Hn Hd Hle. cbn [ParseUint_loop]. rewrite Hc.
  change (maxUint64 / 10 + 1) with 1844674407370955162.
  unfold maxUint64 in *.
  rewrite Z.geb_leb, Z.gtb_ltb.
  destruct (Z.leb_spec 1844674407370955162 n); [lia|].
  destruct (Z.ltb_spec (2 ^ 64 - 1) (n * 10 + d)); [lia | reflexivity].
Qed.

Lemma of_uint_acc_ge d : forall acc,
  Zpos acc <= Zpos (Pos.of_uint_acc d acc).
Proof.
  induction d as [|d IH|d IH|d IH|d IH|d IH|d IH|d IH|d IH|d IH|d IH];
    intros acc; cbn [Pos.of_uint_acc]; [lia|..];
    match goal with
    | |- _ <= Zpos (Pos.of_uint_acc d ?a) => specialize (IH a); lia
    end.
Qed.

Lemma loop_of_uint_acc d : forall acc,
  Zpos (Pos.of_uint_acc d acc) <= maxUint64 ->
  ParseUint_loop (NilEmpty.string_of_uint d) (Zpos acc)
  = (Zpos (Pos.of_uint_acc d acc), None).
Proof.
  induction d as [|d IH|d IH|d IH|d IH|d IH|d IH|d IH|d IH|d IH|d IH];
    intros acc H; cbn [Pos.of_uint_acc NilEmpty.string_of_uint] in *;
    [reflexivity|..];
    match type of H with
    | Zpos (Pos.of_uint_acc d ?a) <= _ =>
        pose proof (of_uint_acc_ge d a) as Hge;
        erewrite ParseUint_loop_step;
          [ rewrite <- (IH a H); f_equal | reflexivity | lia | | ];
          cbn; lia
    end.
Qed.

Lemma loop_of_uint d :
  Z.of_N (Pos.of_uint d) <= maxUint64 ->
  ParseUint_loop (NilEmpty.string_of_uint d) 0 = (Z.of_N (Pos.of_uint d), None).
Proof.
  induction d as [|d IH|d IH|d IH|d IH|d IH|d IH|d IH|d IH|d IH|d IH];
    intros H; cbn [Pos.of_uint NilEmpty.string_of_uint Z.of_N] in *;
    [reflexivity
    |erewrite ParseUint_loop_step;
       [apply (IH H) | reflexivity | lia | lia | unfold maxUint64; lia]
    |..];
    match type of H with
    | Zpos (Pos.of_uint_acc d ?a) <= _ =>
        pose proof (of_uint_acc_ge d a) as Hge;
        erewrite ParseUint_loop_step;
          [ rewrite <- (loop_of_uint_acc d a H); f_equal
          | reflexivity | lia | | ];
          cbn; lia
    end.
Qed.

Lemma string_of_uint_head d :
  d <> Decimal.Nil ->
  NilZero.string_of_uint d = NilEmpty.string_of_uint d /\
  exists c rest,
    NilEmpty.string_of_uint d = String c rest /\
    Ascii.eqb c "+" = false /\ Ascii.eqb c "-" = false.
Proof.
  destruct d; [contradiction|..]; intros _;
    (split; [reflexivity|]; do 2 eexists; split; [reflexivity|];
     split; reflexivity).
Qed.

Lemma wrap64_range z : - 2 ^ 63 <= wrap64 z < 2 ^ 63.
Proof.
  unfold wrap64.
  pose proof (Z.mod_pos_bound (z + 2 ^ 63) (2 ^ 64) ltac:(lia)). lia.
Qed.

Lemma ParseUint_positive p :
  Zpos p <= 2 ^ 63 ->
  ParseUint (NilEmpty.string_of_uint (Pos.to_uint p)) = (Zpos p, None).
Proof.
  intros H.
  destruct (string_of_uint_head (Pos.to_uint p) (Unsigned.to_uint_nonnil p))
    as (_ & c & rest & Hs & _).
  unfold ParseUint. rewrite Hs, <- Hs.
  rewrite loop_of_uint; rewrite Unsigned.of_to; [reflexivity|].
  cbn [Z.of_N]. unfold maxUint64. lia.
Qed.

(** [ParseInt] reads back what [%d] prints, for every [int64]. *)
Lemma ParseInt_itoa n :
  - 2 ^ 63 <= n < 2 ^ 63 -> ParseInt (itoa n) = (n, None).
Proof.
  intros Hn. destruct n as [|p|p].
  - reflexivity.
  - unfold itoa. cbn [Z.to_int NilZero.string_of_int].
    destruct (string_of_uint_head (Pos.to_uint p) (Unsigned.to_uint_nonnil p))
      as (-> & c & rest & Hs & Hplus & Hminus).
    pose proof (ParseUint_positive p ltac:(lia)) as HU.
    unfold ParseInt. rewrite Hs in *. rewrite Hplus, Hminus. cbn [orb negb andb].
    rewrite HU.
    destruct (Z.geb_spec (Zpos p) (2 ^ 63)); [lia|].
    f_equal. apply wrap64_fixed. lia.
  - unfold itoa. cbn [Z.to_int NilZero.string_of_int].
    destruct (string_of_uint_head (Pos.to_uint p) (Unsigned.to_uint_nonnil p))
      as (-> & _).
    pose proof (ParseUint_positive p ltac:(lia)) as HU.
    unfold ParseInt.
    change (Ascii.eqb "-" "-") with true. change (Ascii.eqb "-" "+") with false.
    cbn [orb negb andb]. rewrite HU.
    rewrite Z.gtb_ltb.
    destruct (Z.ltb_spec (2 ^ 63) (Zpos p)); [lia|].
    f_equal. change (Z.neg p) with (- Z.pos p).
    destruct (Z.eq_dec (Zpos p) (2 ^ 63)) as [->|Hne]; [reflexivity|].
    rewrite (proj2 (wrap64_fixed (Zpos p))) by lia.
    apply wrap64_fixed. lia.
Qed.

Lemma ParseInt_range s n : ParseInt s = (n, None) -> - 2 ^ 63 <= n < 2 ^ 63.
Proof.
  unfold ParseInt. destruct s as [|c rest]; [discriminate|].
  destruct (ParseUint _) as [un [[|]|]];
    try discriminate;
    repeat match goal with
           | |- context [if ?b then _ else _] => destruct b
           end;
    intros H; inversion H; apply wrap64_range.
Qed.

Lemma ParseInt_error_Num s n e : ParseInt s = (n, Some e) -> Num e = s.
Proof.
  unfold ParseInt. destruct s as [|c rest];
    [intros H; now inversion H|].
  destruct (ParseUint _) as [un [[|]|]];
    repeat match goal with
           | |- context [if ?b then _ else _] => destruct b
           end;
    intros H; inversion H; reflexivity.
Qed.

Lemma LastIndex_digits d : LastIndex (NilEmpty.string_of_uint d) ":" = -1.
Proof.
  induction d; cbn [NilEmpty.string_of_uint];
    [reflexivity|..]; rewrite LastIndex_cons, IHd; reflexivity.
Qed.

Lemma LastIndex_itoa n : LastIndex (itoa n) ":" = -1.
Proof.
  destruct n as [|p|p]; [reflexivity|..];
    unfold itoa; cbn [Z.to_int NilZero.string_of_int];
    destruct (string_of_uint_head (Pos.to_uint p) (Unsigned.to_uint_nonnil p))
      as (-> & _).
  - apply LastIndex_digits.
  - rewrite LastIndex_cons, LastIndex_digits. reflexivity.
Qed.

Lemma slice_from_after pre c rest :
  slice_from (S (String.length pre)) (pre +:+ String c rest) = rest.
Proof.
  induction pre as [|a pre IH]; [reflexivity|].
  change (String a pre +:+ String c rest)
    with (String a (pre +:+ String c rest)).
  cbn [String.length slice_from]. exact IH.
Qed.

Lemma dialed_app t1 t2 : dialed (t1 ++ t2) = dialed t1 ++ dialed t2.
Proof. unfold dialed. apply omap_app. Qed.

Lemma dialed_after_banner text t : dialed (EvPrintf text :: t) = dialed t.
Proof. reflexivity. Qed.

Lemma dialed_ping_events net k p now :
  dialed (ping_events net k p now) = [dial_address p].
Proof.
  unfold ping_events, dialed. cbn.
  destruct (Dial net k _); [reflexivity|].
  destruct (Read net k _); reflexivity.
Qed.

(** Whatever way [main] ends, every address it dialed is the host, a colon
    and the port in decimal. *)
Lemma main_dials net ip port timeout count :
  dialed (trace (env (snd (main net ip port timeout count))))
  = replicate (dials (env (snd (main net ip port timeout count))))
              (ip +:+ ":" +:+ itoa port).
Proof.
  destruct (Z.lt_ge_cases count 0) as [Hneg|Hpos].
  { unfold main, main_body, bind, make_results.
    destruct (Z.ltb_spec count 0); [reflexivity | lia]. }
  rewrite main_from_Run by exact Hpos.
  assert (HRun :
    Destination (Parameters (self (snd (Run net (main_state ip port timeout count))))) = ip /\
    DestinationPort (Parameters (self (snd (Run net (main_state ip port timeout count))))) = port /\
    dialed (trace (env (snd (Run net (main_state ip port timeout count)))))
    = replicate (dials (env (snd (Run net (main_state ip port timeout count)))))
                (ip +:+ ":" +:+ itoa port)).
  { apply (Run_preserves net
             (fun s => Destination (Parameters (self s)) = ip /\
                       DestinationPort (Parameters (self s)) = port /\
                       dialed (trace (env s))
                       = replicate (dials (env s)) (ip +:+ ":" +:+ itoa port))).
    - intros s (Hd & Hp & Ht).
      destruct (ValidateParameters_frame net s) as (_ & HD & HT & Hd' & Hp' & _).
      rewrite Hd', Hp', HD, HT. auto.
    - intros i s (Hd & Hp & Ht).
      destruct (attempt_effects net i s) as (HD & HT & HP & _).
      rewrite HP, HD, HT. split; [exact Hd|]. split; [exact Hp|].
      unfold turn_world. cbn [trace].
      rewrite dialed_app, dialed_after_banner, dialed_ping_events.
      rewrite Ht, replicate_S_end. f_equal.
      unfold dial_address. rewrite Hd, Hp. cbn. now rewrite append_empty_r.
    - repeat split. }
  destruct HRun as (_ & _ & HRun).
  destruct (Run net _) as [[[e|]|q|] s']; exact HRun.
Qed.

(** For a host that is not empty, colons allowed, and a port within
    [int64], the argument made of the host, a colon and the port in decimal
    is taken apart into that host and that port, and [main] goes on to run
    for them; in that run, however it ends, every dial [pingUdp] makes is to
    the argument itself. *)
Theorem main_args_canonical net host port timeout count :
  host <> EmptyString ->
  - 2 ^ 63 <= port < 2 ^ 63 ->
  exists r,
    main_args net (host +:+ ":" +:+ itoa port) timeout count = Ran r /\
    r = main net host port timeout count /\
    dialed (trace (env (snd r)))
    = replicate (dials (env (snd r))) (host +:+ ":" +:+ itoa port).
Proof.
  intros Hhost Hport. eexists. split; [|split; [reflexivity|apply main_dials]].
  unfold main_args.
  destruct (LastIndex_app_colon host (itoa port)) as (_ & _ & Heq).
  rewrite (Heq (LastIndex_itoa port)).
  assert (Hlen : 0 < Z.of_nat (String.length host)).
  { destruct host; [contradiction | cbn; lia]. }
  rewrite Z.gtb_ltb. destruct (Z.ltb_spec 0 (Z.of_nat (String.length host)));
    [|lia].
  replace (Z.to_nat (Z.of_nat (String.length host) + 1))
    with (S (String.length host)) by lia.
  rewrite Nat2Z.id.
  change (host +:+ ":" +:+ itoa port)
    with (host +:+ String ":" (itoa port)).
  rewrite slice_from_after, (proj1 (slice_app host _)).
  now rewrite ParseInt_itoa.
Qed.

Lemma main_args_canonical_witness :
  exists r,
    main_args sample_net ("localhost" +:+ ":" +:+ itoa 9) 5 3 = Ran r /\
    r = main sample_net "localhost" 9 5 3 /\
    dialed (trace (env (snd r)))
    = replicate (dials (env (snd r))) ("localhost" +:+ ":" +:+ itoa 9).
Proof.
  apply (main_args_canonical sample_net "localhost" 9 5 3).
  - discriminate.
  - lia.
Defined.

Example main_args_canonical_sample :
  dialed (trace (env (snd (main sample_net "localhost" 9 5 3))))
  = ["localhost:9"%string; "localhost:9"%string; "localhost:9"%string].
Proof. vm_compute; reflexivity. Qed.

(** When [main] goes on to run, the argument was a host that is not empty,
    a colon, and a port text without a colon that [ParseInt] accepts, and
    the run is the one for that host and that port, which is within
    [int64].  When it panics on the port, the error carries the text after
    the last colon. *)
Theorem main_args_runs net ipport timeout count :
  (forall r,
     main_args net ipport timeout count = Ran r ->
     exists ip portStr port,
       ipport = ip +:+ ":" +:+ portStr /\
       ip <> EmptyString /\
       LastIndex portStr ":" = -1 /\
       ParseInt portStr = (port, None) /\
       - 2 ^ 63 <= port < 2 ^ 63 /\
       r = main net ip port timeout count) /\
  (forall e,
     main_args net ipport timeout count = PortPanic e ->
     exists ip,
       ip <> EmptyString /\ ipport = ip +:+ ":" +:+ Num e /\
       LastIndex (Num e) ":" = -1).
Proof.
  unfold main_args. rewrite Z.gtb_ltb.
  destruct (Z.ltb_spec 0 (LastIndex ipport ":")) as [Hi|Hi];
    [|split; intros; discriminate].
  destruct (LastIndex_colon_split ipport ltac:(lia)) as (Hs & Hp & Hl).
  replace (Z.to_nat (LastIndex ipport ":" + 1))
    with (S (Z.to_nat (LastIndex ipport ":"))) by lia.
  assert (Hip : slice_to (Z.to_nat (LastIndex ipport ":")) ipport
                <> EmptyString).
  { destruct ipport as [|a rest]; [cbn in Hi; lia|].
    destruct (Z.to_nat (LastIndex (String a rest) ":")) eqn:Hn; [lia|].
    discriminate. }
  destruct (ParseInt _) as [port [err|]] eqn:HP; split;
    try (intros; discriminate).
  - intros e He. inversion He; subst e.
    apply ParseInt_error_Num in HP. rewrite HP. eauto.
  - intros r Hr. inversion Hr; subst r.
    do 3 eexists. split; [exact Hs|]. split; [exact Hip|].
    split; [exact Hp|]. split; [exact HP|].
    split; [now apply ParseInt_range in HP | reflexivity].
Qed.

Lemma main_args_runs_witness :
  exists ip portStr port,
    "::1:+0053"%string = ip +:+ ":" +:+ portStr /\
    ip <> EmptyString /\
    LastIndex portStr ":" = -1 /\
    ParseInt portStr = (port, None) /\
    - 2 ^ 63 <= port < 2 ^ 63 /\
    main sample_net "::1" 53 1 2 = main sample_net ip port 1 2.
Proof.
  apply (proj1 (main_args_runs sample_net "::1:+0053" 1 2)
           (main sample_net "::1" 53 1 2)).
  reflexivity.
Defined.

(** ** The requests the program builds *)

(** Every run the program makes starts from a slice of three entries, and
    three is also the count validation leaves: the slice is as long as the
    validated count. *)
Lemma main_program_request net ipport r :
  main_program net ipport = Ran r ->
  exists ip port,
    r = main net ip port 5 3 /\
    Results (self (main_state ip port 5 3)) = replicate 3 zero_result /\
    forall s1,
      ValidateParameters net (main_state ip port 5 3) = (Ret None, s1) ->
      Z.of_nat (length (Results (self (main_state ip port 5 3))))
      = Count (Parameters (self s1)).
Proof.
  unfold main_program, main_args.
  destruct (LastIndex ipport ":" >? 0); [|discriminate].
  destruct (ParseInt _) as [port [err|]]; [discriminate|].
  intros H. inversion H.
  eexists _, port. split; [reflexivity|]. split; [reflexivity|].
  intros s1 Hv.
  apply ValidateParameters_nil in Hv as (ip0 & ips & _ & _ & _ & ->).
  reflexivity.
Qed.
